(** * R documentation handler: model of [src/r-docs-integration.ts]

    The development embeds the argument validator [isRDocArgs], the help-text
    parser [parseRDoc] with its fold rule [addSectionToResult], and the two
    asynchronous entry points [describeRPackage] and [getRPackageDoc] of the
    class [RDocsHandler], and proves the properties the specification states
    about them. *)

From Stdlib Require Import Ascii String.
From stdpp Require Import base option list strings gmap.

(** ** JavaScript strings

    A JavaScript string is a sequence of UTF-16 code units.  The model keeps
    the code units below 256, one [ascii] per unit; the character classes
    below list the members of each JavaScript class that fall in that range. *)

Module JsString.

Definition code (c : ascii) : nat := nat_of_ascii c.

(** The characters written with an escape in the source. *)
Definition nl : string := String "010"%char EmptyString.
Definition dquote : string := String "034"%char EmptyString.

(** [[A-Z]], [[a-z]] and [_]. *)
Definition isUpper (c : ascii) : bool := (65 <=? code c) && (code c <=? 90).
Definition isLower (c : ascii) : bool := (97 <=? code c) && (code c <=? 122).
Definition isUnderscore (c : ascii) : bool := code c =? 95.

(** WhiteSpace and LineTerminator of ECMAScript, as used by [trim]:
    TAB, LF, VT, FF, CR, SP and NBSP. *)
Definition isWhiteSpace (c : ascii) : bool :=
  ((9 <=? code c) && (code c <=? 13)) || (code c =? 32) || (code c =? 160).

(** The characters the regular-expression atom [.] does not match. *)
Definition isLineTerminator (c : ascii) : bool :=
  (code c =? 10) || (code c =? 13).

(** [s.length === 0], i.e. [!s] for a string. *)
Definition isEmpty (s : string) : bool :=
  match s with EmptyString => true | String _ _ => false end.

(** Truthiness of an optional string ([undefined] and [''] are falsy). *)
Definition truthy (o : option string) : bool :=
  match o with Some s => negb (isEmpty s) | None => false end.

Fixpoint startsWith (s p : string) : bool :=
  match p, s with
  | EmptyString, _ => true
  | String a p', String b s' => Ascii.eqb a b && startsWith s' p'
  | String _ _, EmptyString => false
  end.

(** [s.includes(sub)] *)
Fixpoint includes (s sub : string) : bool :=
  startsWith s sub ||
  match s with
  | EmptyString => false
  | String _ s' => includes s' sub
  end.

Fixpoint trimStart (s : string) : string :=
  match s with
  | EmptyString => EmptyString
  | String c s' => if isWhiteSpace c then trimStart s' else s
  end.

Fixpoint trimEnd (s : string) : string :=
  match s with
  | EmptyString => EmptyString
  | String c s' =>
      let t := trimEnd s' in
      if isWhiteSpace c && isEmpty t then EmptyString else String c t
  end.

(** [s.trim()] *)
Definition trim (s : string) : string := trimEnd (trimStart s).

(** [s.split('\n')]: never the empty array. *)
Fixpoint split_nl (s : string) : list string :=
  match s with
  | EmptyString => [EmptyString]
  | String c s' =>
      if code c =? 10 then EmptyString :: split_nl s'
      else match split_nl s' with
           | l :: ls => String c l :: ls
           | [] => [String c EmptyString]
           end
  end.

(** [a.join('\n')] *)
Fixpoint join_nl (a : list string) : string :=
  match a with
  | [] => EmptyString
  | [l] => l
  | l :: ls => l +:+ nl +:+ join_nl ls
  end.

Definition lowerChar (c : ascii) : ascii :=
  if isUpper c
     || ((192 <=? code c) && (code c <=? 222) && negb (code c =? 215))
  then ascii_of_nat (code c + 32) else c.

(** [s.toLowerCase()] *)
Fixpoint toLowerCase (s : string) : string :=
  match s with
  | EmptyString => EmptyString
  | String c s' => String (lowerChar c) (toLowerCase s')
  end.

(** Longest prefix whose characters satisfy [p], and what follows it: the
    way a greedy character-class repetition consumes its input. *)
Fixpoint span (p : ascii -> bool) (s : string) : string * string :=
  match s with
  | EmptyString => (EmptyString, EmptyString)
  | String c s' =>
      if p c then let '(x, r) := span p s' in (String c x, r)
      else (EmptyString, s)
  end.

(** [s.replace(/_/g, '')] *)
Fixpoint removeUnderscores (s : string) : string :=
  match s with
  | EmptyString => EmptyString
  | String c s' =>
      if isUnderscore c then removeUnderscores s'
      else String c (removeUnderscores s')
  end.

End JsString.

Import JsString.

(** ** Thrown values

    What a [catch] clause receives: an [Error] instance with its [message],
    or any other value, kept as what [String(error)] returns for it. *)

Inductive Thrown : Type :=
  | ThrownError (message : string)
  | ThrownOther (asString : string).

(** [error instanceof Error ? error.message : String(error)] *)
Definition errorMessageOf (e : Thrown) : string :=
  match e with
  | ThrownError m => m
  | ThrownOther s => s
  end.

(** The outcome of evaluating a synchronous expression. *)
Definition Completion (A : Type) : Type := (Thrown + A)%type.

(** ** Result shapes

    The interfaces of the source.  No number is computed with in this file;
    the numeric fields are carried as integers. *)

Record SearchResult : Type := mkSearchResult {
  sr_symbol : option string;
  sr_match : string;
  sr_context : option string;
  sr_score : Z;
  sr_type : option string
}.

Record SearchResults : Type := mkSearchResults {
  results : list SearchResult;
  totalResults : Z;
  srs_error : option string;
  srs_suggestInstall : option bool
}.

Record DocResult : Type := mkDocResult {
  description : option string;
  usage : option string;
  example : option string;
  error : option string;
  searchResults : option SearchResults;
  suggestInstall : option bool
}.

(** The object literal [{}]. *)
Definition emptyResult : DocResult := mkDocResult None None None None None None.

(** The object literal [{ error: msg }]. *)
Definition errorResult (msg : string) : DocResult :=
  mkDocResult None None None (Some msg) None None.

Definition set_description (r : DocResult) (v : string) : DocResult :=
  mkDocResult (Some v) (usage r) (example r) (error r) (searchResults r)
    (suggestInstall r).

Definition set_usage (r : DocResult) (v : string) : DocResult :=
  mkDocResult (description r) (Some v) (example r) (error r) (searchResults r)
    (suggestInstall r).

Definition set_example (r : DocResult) (v : string) : DocResult :=
  mkDocResult (description r) (usage r) (Some v) (error r) (searchResults r)
    (suggestInstall r).

(** ** Section headers

    The two header patterns of [parseRDoc].  Each matcher returns the capture
    group and the text that follows the colon.  Neither character class
    contains the colon, so the greedy repetition takes the longest run and no
    shorter run can be followed by a colon. *)

Definition isHeaderClass (c : ascii) : bool :=
  isUpper c || isLower c || isUnderscore c.

(** [/^_[A-Za-z_]+:/] *)
Definition matchEmphasis (line : string) : option (string * string) :=
  match line with
  | String c rest =>
      if isUnderscore c then
        match span isHeaderClass rest with
        | (String x xs, String colon tail) =>
            if code colon =? 58 then Some (String x xs, tail) else None
        | _ => None
        end
      else None
  | EmptyString => None
  end.

(** [/^[A-Z][a-z]+:/] *)
Definition matchCapitalized (line : string) : option (string * string) :=
  match line with
  | String c rest =>
      if isUpper c then
        match span isLower rest with
        | (String x xs, String colon tail) =>
            if code colon =? 58 then Some (String c (String x xs), tail)
            else None
        | _ => None
        end
      else None
  | EmptyString => None
  end.

(** [line.match(/^_[A-Za-z_]+:/) || line.match(/^[A-Z][a-z]+:/)] *)
Definition isHeader (line : string) : bool :=
  bool_decide (is_Some (matchEmphasis line))
  || bool_decide (is_Some (matchCapitalized line)).

(** What [.*] leaves unmatched: everything from the first line terminator. *)
Definition afterDotStar (tail : string) : string :=
  snd (span (fun c => negb (isLineTerminator c)) tail).

(** [s.replace(/^_([A-Za-z_]+):.*/, '$1')] *)
Definition replaceEmphasis (s : string) : string :=
  match matchEmphasis s with
  | Some (name, tail) => name +:+ afterDotStar tail
  | None => s
  end.

(** [s.replace(/^([A-Z][a-z]+):.*/, '$1')] *)
Definition replaceCapitalized (s : string) : string :=
  match matchCapitalized s with
  | Some (name, tail) => name +:+ afterDotStar tail
  | None => s
  end.

(** The section name extracted from a header line. *)
Definition sectionName (line : string) : string :=
  replaceCapitalized (removeUnderscores (replaceEmphasis line)).

(** ** The fold rule *)

(** [if (result.usage) result.usage += '\n\n## H\n\n' + content
     else result.usage = '## H\n\n' + content] *)
Definition appendToUsage (r : DocResult) (heading content : string)
  : DocResult :=
  match usage r with
  | Some u =>
      if isEmpty u
      then set_usage r ("## " +:+ heading +:+ nl +:+ nl +:+ content)
      else set_usage r
             (u +:+ nl +:+ nl +:+ "## " +:+ heading +:+ nl +:+ nl +:+ content)
  | None => set_usage r ("## " +:+ heading +:+ nl +:+ nl +:+ content)
  end.

Definition addSectionToResult (r : DocResult) (section content : string)
  : DocResult :=
  let key := toLowerCase section in
  if String.eqb key "description" then set_description r content
  else if String.eqb key "usage" then set_usage r content
  else if String.eqb key "arguments" then appendToUsage r "Arguments" content
  else if String.eqb key "value" then appendToUsage r "Return Value" content
  else if String.eqb key "details" then appendToUsage r "Details" content
  else if String.eqb key "examples" then set_example r content
  else if String.eqb key "references" || String.eqb key "seealso"
          || String.eqb key "author" || String.eqb key "note"
  then appendToUsage r section content
  else r.

(** ** The parser *)

(** The variables the scanning loop of [parseRDoc] updates. *)
Record ScanState : Type := mkScan {
  result : DocResult;
  currentSection : string;
  sectionContent : list string
}.

(** [if (currentSection && sectionContent.length > 0)
      this.addSectionToResult(result, currentSection, sectionContent.join('\n'))] *)
Definition flush (st : ScanState) : DocResult :=
  if negb (isEmpty (currentSection st)) && (0 <? length (sectionContent st))
  then addSectionToResult (result st) (currentSection st)
         (join_nl (sectionContent st))
  else result st.

(** One iteration of the loop body, on [lines[i]]. *)
Definition scanLine (st : ScanState) (line : string) : ScanState :=
  if isHeader line
  then mkScan (flush st) (sectionName line) []
  else mkScan (result st) (currentSection st) (sectionContent st ++ [line]).

(** [for (let i = 3; i < lines.length; i++)] followed by the last flush. *)
Definition scanFrom (st : ScanState) (rest : list string) : DocResult :=
  flush (fold_left scanLine rest st).

(** [lines[2].trim()]: the element access yields [undefined] out of range,
    and calling [trim] on it raises a [TypeError]. *)
Definition trimLine2 (lines : list string) : Completion string :=
  match lines !! 2 with
  | Some l => inr (trim l)
  | None =>
      inl (ThrownError "Cannot read properties of undefined (reading 'trim')")
  end.

(** [if (lines.length > 2) result.description = lines[2].trim()] *)
Definition initialResult (lines : list string) : Completion DocResult :=
  if 2 <? length lines
  then match trimLine2 lines with
       | inr t => inr (set_description emptyResult t)
       | inl e => inl e
       end
  else inr emptyResult.

(** The first test of [parseRDoc]. *)
Definition notFound (doc : string) : bool :=
  isEmpty doc || includes doc "Documentation not found"
  || String.eqb (trim doc) "".

Definition notFoundMessage (packageName : string) (symbol : option string)
  : string :=
  "Documentation not found for " +:+
  (if truthy symbol
   then packageName +:+ "::" +:+ default "" symbol
   else "package " +:+ packageName).

(** [if (!result.usage && !symbol) result.usage = doc] *)
Definition usageFallback (doc : string) (symbol : option string)
  (r : DocResult) : DocResult :=
  if negb (truthy (usage r)) && negb (truthy symbol) then set_usage r doc
  else r.

(** The lines of the text, parsed: everything between the first test and the
    fallback. *)
Definition parseLines (lines : list string) : Completion DocResult :=
  match initialResult lines with
  | inr r0 => inr (scanFrom (mkScan r0 "" []) (drop 3 lines))
  | inl e => inl e
  end.

Definition parseRDoc (doc packageName : string) (symbol : option string)
  : Completion DocResult :=
  if notFound doc then inr (errorResult (notFoundMessage packageName symbol))
  else match parseLines (split_nl doc) with
       | inr r => inr (usageFallback doc symbol r)
       | inl e => inl e
       end.

(** ** Vocabulary of the specification *)

(** Every character of [s] satisfies [p]. *)
Fixpoint allChars (p : ascii -> bool) (s : string) : bool :=
  match s with
  | EmptyString => true
  | String c s' => p c && allChars p s'
  end.

(** The text consists of white space only (the empty text included). *)
Definition whitespaceOnly (s : string) : Prop :=
  allChars isWhiteSpace s = true.

(** [sub] occurs somewhere in [s]. *)
Definition occursIn (sub s : string) : Prop :=
  exists pre post, s = pre +:+ sub +:+ post.

(** The marker of absent documentation. *)
Definition notFoundMarker : string := "Documentation not found".

(** A text the parser goes on to scan. *)
Definition accepted (doc : string) : Prop := notFound doc = false.

(** A symbol was passed, whatever its value. *)
Definition symbolPresent (symbol : option string) : Prop := is_Some symbol.

(** The sections the scanning loop hands to the fold rule, in the order of
    the calls, each with its name and its joined content; [cur] and [content]
    are the section being accumulated. *)
Definition emitted (cur : string) (content : list string)
  : list (string * string) :=
  if negb (isEmpty cur) && (0 <? length content)
  then [(cur, join_nl content)] else [].

Fixpoint sectionsFrom (cur : string) (content rest : list string)
  : list (string * string) :=
  match rest with
  | [] => emitted cur content
  | line :: rest' =>
      if isHeader line
      then emitted cur content ++ sectionsFrom (sectionName line) [] rest'
      else sectionsFrom cur (content ++ [line]) rest'
  end.

Definition foldedSections (doc : string) : list (string * string) :=
  sectionsFrom "" [] (drop 3 (split_nl doc)).

Definition foldSections (r : DocResult) (secs : list (string * string))
  : DocResult :=
  fold_left (fun acc s => addSectionToResult acc s.1 s.2) secs r.

(** The section names whose fold action writes the [usage] field. *)
Definition touchesUsage (name : string) : bool :=
  let key := toLowerCase name in
  String.eqb key "usage" || String.eqb key "arguments"
  || String.eqb key "value" || String.eqb key "details"
  || String.eqb key "references" || String.eqb key "seealso"
  || String.eqb key "author" || String.eqb key "note".

Definition isDescriptionName (name : string) : bool :=
  String.eqb (toLowerCase name) "description".

(** The content of the last [Description] section folded, if any. *)
Definition lastDescription (secs : list (string * string)) : option string :=
  snd <$> last (filter (fun s => isDescriptionName s.1 = true) secs).

(** ** Argument validation

    The values a caller can pass as [args: unknown].  The validator looks at
    the type of a value only, never at a number. *)

Local Unset Elimination Schemes.
Inductive JsValue : Type :=
  | JsUndefined
  | JsNull
  | JsBoolean (b : bool)
  | JsNumber (n : Z)
  | JsString (s : string)
  | JsArray (items : list JsValue)
  | JsObject (props : gmap string JsValue).
Local Set Elimination Schemes.

(** [typeof v] *)
Definition typeof (v : JsValue) : string :=
  match v with
  | JsUndefined => "undefined"
  | JsNull => "object"
  | JsBoolean _ => "boolean"
  | JsNumber _ => "number"
  | JsString _ => "string"
  | JsArray _ => "object"
  | JsObject _ => "object"
  end.

(** [v.key] for one of the three keys the validator reads, none of which is
    an own or inherited property of an array or of a primitive.  The
    validator reads a property only after it has excluded [undefined] and
    [null], on which the access would raise. *)
Definition getProp (v : JsValue) (key : string) : JsValue :=
  match v with
  | JsObject props => default JsUndefined (props !! key)
  | _ => JsUndefined
  end.

Definition isUndefined (v : JsValue) : bool :=
  match v with JsUndefined => true | _ => false end.

Definition isNull (v : JsValue) : bool :=
  match v with JsNull => true | _ => false end.

Definition isRDocArgs (args : JsValue) : bool :=
  String.eqb (typeof args) "object"
  && negb (isNull args)
  && String.eqb (typeof (getProp args "package")) "string"
  && (String.eqb (typeof (getProp args "symbol")) "string"
      || isUndefined (getProp args "symbol"))
  && (String.eqb (typeof (getProp args "projectPath")) "string"
      || isUndefined (getProp args "projectPath")).

(** [interface RDocArgs] *)
Record RDocArgs : Type := mkRDocArgs {
  package : string;
  symbol : option string;
  projectPath : option string
}.

(** ** The asynchronous entry points

    [execAsync] is the only access to the outside: it is given a command
    line and either resolves with the captured output or rejects.  The
    handlers are modelled over an arbitrary outside world [World] and an
    arbitrary behaviour [run] of the command runner on it.  The logger module
    is not part of the sources read here; its calls are recorded as log
    entries and do not raise. *)

Record ExecOutput : Type := mkExecOutput { stdout : string; stderr : string }.

Inductive LogEntry : Type :=
  | LogInfo (message : string)
  | LogError (message : string) (cause : Thrown).

Record Env (World : Type) : Type := mkEnv {
  world : World;
  issued : list string;
  logged : list LogEntry
}.
Arguments mkEnv {World} _ _ _.
Arguments world {World} _.
Arguments issued {World} _.
Arguments logged {World} _.

(** An asynchronous computation: it runs from an environment, and either
    rejects with a thrown value or resolves with a result. *)
Definition Async (World A : Type) : Type :=
  Env World -> Completion A * Env World.

Section Handler.

Context {World : Type}.
Variable run : string -> World -> Completion ExecOutput * World.

Definition resolve {A} (a : A) : Async World A := fun env => (inr a, env).

Definition andThen {A B} (m : Async World A) (k : A -> Async World B)
  : Async World B :=
  fun env =>
    match m env with
    | (inr a, env') => k a env'
    | (inl e, env') => (inl e, env')
    end.

(** [try { m } catch (error) { h error }] *)
Definition tryCatch {A} (m : Async World A) (h : Thrown -> Async World A)
  : Async World A :=
  fun env =>
    match m env with
    | (inr a, env') => (inr a, env')
    | (inl e, env') => h e env'
    end.

(** A synchronous call inside an asynchronous function. *)
Definition complete {A} (c : Completion A) : Async World A :=
  fun env => (c, env).

(** [await execAsync(command)]; the command is added to the commands
    issued so far. *)
Definition execAsync (command : string) : Async World ExecOutput :=
  fun env =>
    let '(r, w) := run command (world env) in
    (r, mkEnv w (issued env ++ [command]) (logged env)).

Definition logger_info (message : string) : Async World unit :=
  fun env =>
    (inr tt, mkEnv (world env) (issued env) (logged env ++ [LogInfo message])).

Definition logger_error (message : string) (cause : Thrown)
  : Async World unit :=
  fun env =>
    (inr tt,
     mkEnv (world env) (issued env) (logged env ++ [LogError message cause])).

Notation "x <- m ;; k" := (andThen m (fun x => k))
  (at level 100, m at next level, right associativity).

Definition whichCommand : string := "which Rscript".

Definition requireCommand (packageName : string) : string :=
  "Rscript -e " +:+ dquote +:+ "cat(requireNamespace('" +:+ packageName
  +:+ "', quietly = TRUE))" +:+ dquote.

Definition helpSymbolCommand (sym packageName : string) : string :=
  "Rscript -e " +:+ dquote +:+ "help('" +:+ sym +:+ "', package='"
  +:+ packageName +:+ "')" +:+ dquote.

Definition helpPackageCommand (packageName : string) : string :=
  "Rscript -e " +:+ dquote +:+ "help(package='" +:+ packageName +:+ "')"
  +:+ dquote.

Definition examplesCommand (sym packageName : string) : string :=
  "Rscript -e " +:+ dquote +:+ "example('" +:+ sym +:+ "', package='"
  +:+ packageName +:+ "', ask=FALSE, echo=TRUE)" +:+ dquote.

Definition descCommand (packageName : string) : string :=
  "Rscript -e " +:+ dquote +:+ "info <- packageDescription('"
  +:+ packageName
  +:+ "'); cat('Package: ', info\$Package, '\n'); cat('Version: ', info\$Version, '\n'); cat('Title: ', info\$Title, '\n'); cat('Description: ', info\$Description, '\n')"
  +:+ dquote.

Definition functionsCommand (packageName : string) : string :=
  "Rscript -e " +:+ dquote +:+ "library('" +:+ packageName
  +:+ "'); funcs <- ls('package:" +:+ packageName
  +:+ "'); cat('Functions exported by " +:+ packageName
  +:+ ":\n'); cat(paste('-', funcs), sep='\n')" +:+ dquote.

Definition isRInstalled : Async World bool :=
  tryCatch
    (_ <- execAsync whichCommand ;; resolve true)
    (fun _ => resolve false).

Definition isRPackageInstalled (packageName : string) : Async World bool :=
  tryCatch
    (out <- execAsync (requireCommand packageName) ;;
     resolve (String.eqb (trim (stdout out)) "TRUE"))
    (fun _ => resolve false).

Definition notInstalledR : DocResult :=
  errorResult
    "R is not installed or not in the PATH. Please install R and make sure it's available in your PATH.".

Definition notInstalledPackage (packageName : string) : DocResult :=
  mkDocResult None None None
    (Some ("Package " +:+ packageName
           +:+ " is not installed. Try installing it with 'install.packages("
           +:+ dquote +:+ packageName +:+ dquote +:+ ")' in R."))
    None (Some true).

Definition fetchFailed (e : Thrown) : DocResult :=
  errorResult ("Failed to fetch R documentation: " +:+ errorMessageOf e).

(** [`${packageName}${symbol ? `::${symbol}` : ""}`] *)
Definition qualifiedName (packageName : string) (sym : option string)
  : string :=
  packageName +:+ (if truthy sym then "::" +:+ default "" sym else "").

Definition describeRPackage (args : RDocArgs) : Async World DocResult :=
  let packageName := package args in
  let sym := symbol args in
  _ <- logger_info
         ("Getting R documentation for " +:+ qualifiedName packageName sym) ;;
  tryCatch
    (isInstalled <- isRInstalled ;;
     if negb isInstalled then resolve notInstalledR
     else
       isPackageInstalled <- isRPackageInstalled packageName ;;
       if negb isPackageInstalled
       then resolve (notInstalledPackage packageName)
       else
         let rCommand :=
           if truthy sym
           then helpSymbolCommand (default "" sym) packageName
           else helpPackageCommand packageName in
         out <- execAsync rCommand ;;
         complete (parseRDoc (stdout out) packageName sym))
    (fun e =>
       _ <- logger_error
              ("Error getting R documentation for " +:+ packageName +:+ ":")
              e ;;
       resolve (fetchFailed e)).

(** The inner [try] of [getRPackageDoc]: the examples of a symbol. *)
Definition withExamples (r : DocResult) (sym packageName : string)
  : Async World DocResult :=
  tryCatch
    (out <- execAsync (examplesCommand sym packageName) ;;
     let examplesOutput := stdout out in
     if negb (isEmpty examplesOutput)
        && negb (String.eqb (trim examplesOutput) "")
     then resolve (set_example r examplesOutput)
     else resolve r)
    (fun _ =>
       _ <- logger_info
              ("No examples found for " +:+ packageName +:+ "::" +:+ sym) ;;
       resolve r).

Definition getRPackageDoc (args : RDocArgs) : Async World DocResult :=
  let packageName := package args in
  let sym := symbol args in
  _ <- logger_info
         ("Getting full R documentation for "
          +:+ qualifiedName packageName sym) ;;
  tryCatch
    (isInstalled <- isRInstalled ;;
     if negb isInstalled then resolve notInstalledR
     else
       isPackageInstalled <- isRPackageInstalled packageName ;;
       if negb isPackageInstalled
       then resolve (notInstalledPackage packageName)
       else if truthy sym
       then
         help <- execAsync (helpSymbolCommand (default "" sym) packageName) ;;
         r <- complete (parseRDoc (stdout help) packageName sym) ;;
         withExamples r (default "" sym) packageName
       else
         overview <- execAsync (helpPackageCommand packageName) ;;
         desc <- execAsync (descCommand packageName) ;;
         functions <- execAsync (functionsCommand packageName) ;;
         resolve
           (set_usage (set_description emptyResult (stdout desc))
              ("# Package Overview" +:+ nl +:+ nl +:+ stdout overview
               +:+ nl +:+ nl +:+ "# Exported Functions" +:+ nl +:+ nl
               +:+ stdout functions)))
    (fun e =>
       _ <- logger_error
              ("Error getting full R documentation for " +:+ packageName
               +:+ ":") e ;;
       resolve (fetchFailed e)).

(** What the two availability checks observe, and the world each leaves
    behind; [w] is the world the handler starts in. *)
Definition isToolAvailable (w : World) : bool :=
  match (run whichCommand w).1 with inr _ => true | inl _ => false end.

Definition afterToolCheck (w : World) : World := (run whichCommand w).2.

Definition isPackageAvailable (packageName : string) (w : World) : bool :=
  match (run (requireCommand packageName) (afterToolCheck w)).1 with
  | inr out => String.eqb (trim (stdout out)) "TRUE"
  | inl _ => false
  end.

Definition afterPackageCheck (packageName : string) (w : World) : World :=
  (run (requireCommand packageName) (afterToolCheck w)).2.

(** The help command of [describeRPackage]. *)
Definition helpCommand (packageName : string) (sym : option string)
  : string :=
  if truthy sym then helpSymbolCommand (default "" sym) packageName
  else helpPackageCommand packageName.

End Handler.

(** A world that answers the commands from a script, one outcome per
    command, and rejects once the script is exhausted. *)
Definition scripted (command : string) (script : list (Completion ExecOutput))
  : Completion ExecOutput * list (Completion ExecOutput) :=
  match script with
  | o :: script' => (o, script')
  | [] => (inl (ThrownError ("Command failed: " +:+ command)), [])
  end.

Definition startEnv {World} (w : World) : Env World := mkEnv w [] [].

Definition printed (text : string) : Completion ExecOutput :=
  inr (mkExecOutput text "").

(** The result before the scan: the third line as the description, when
    there is one. *)
Definition preamble (lines : list string) : DocResult :=
  from_option (fun l => set_description emptyResult (trim l)) emptyResult
    (lines !! 2).

(** A header line that opens a section without content: the next line is a
    header too, or the text ends. *)
Definition closesAtOnce (rest : list string) : Prop :=
  rest = [] \/ exists h rest', rest = h :: rest' /\ isHeader h = true.

(** The folded sections that write the [usage] field. *)
Definition usageSections (doc : string) : list (string * string) :=
  filter (fun s => touchesUsage s.1 = true) (foldedSections doc).

(** A help text whose [Usage] section is one blank line. *)
Definition blankUsageDoc : string :=
  "f   package:base   R Documentation" +:+ nl +:+ nl +:+ "Title" +:+ nl
  +:+ "Usage:" +:+ nl +:+ nl
  +:+ "Arguments:" +:+ nl +:+ "x: a vector" +:+ nl
  +:+ "Value:" +:+ nl +:+ "a number".

(** A help text with the three sections, and others around them. *)
Definition meanDoc : string :=
  "mean   package:base   R Documentation" +:+ nl +:+ nl
  +:+ "  _A_r_i_t_h_m_e_t_i_c _M_e_a_n " +:+ nl +:+ nl
  +:+ "_D_e_s_c_r_i_p_t_i_o_n:" +:+ nl +:+ "  Arithmetic mean." +:+ nl
  +:+ "_U_s_a_g_e:" +:+ nl +:+ "  mean(x, ...)" +:+ nl
  +:+ "_A_r_g_u_m_e_n_t_s:" +:+ nl +:+ "  x: an R object." +:+ nl
  +:+ "_E_x_a_m_p_l_e_s:" +:+ nl +:+ "  mean(1:10)" +:+ nl
  +:+ "_V_a_l_u_e:" +:+ nl +:+ "  The mean.".

(** A help text with a [Details] header that has no content. *)
Definition emptyDetailsDoc : string :=
  "f   package:base   R Documentation" +:+ nl +:+ nl +:+ "Title" +:+ nl
  +:+ "Description:" +:+ nl +:+ "Does f." +:+ nl
  +:+ "Details:" +:+ nl
  +:+ "Usage:" +:+ nl +:+ "f(x)".

(** The value is [undefined] or a string. *)
Definition stringOrUndefined (v : JsValue) : Prop :=
  v = JsUndefined \/ exists s, v = JsString s.

(** [{ package: "", symbol: "", projectPath: "" }] *)
Definition emptyStringArgs : JsValue :=
  JsObject (<["package" := JsString ""]>
            (<["symbol" := JsString ""]>
             (<["projectPath" := JsString ""]> ∅))).

(** [{ package: "base", symbol: "mean" }] *)
Definition meanArgs : JsValue :=
  JsObject (<["package" := JsString "base"]>
            (<["symbol" := JsString "mean"]> ∅)).

(** The first log entry of each handler. *)
Definition describeInfo (args : RDocArgs) : LogEntry :=
  LogInfo ("Getting R documentation for "
           +:+ qualifiedName (package args) (symbol args)).

Definition fullDocInfo (args : RDocArgs) : LogEntry :=
  LogInfo ("Getting full R documentation for "
           +:+ qualifiedName (package args) (symbol args)).

(** Queries and worlds used as examples. *)
Definition missingPackageQuery : RDocArgs :=
  mkRDocArgs "nonexistentpackage123" None None.

Definition meanQuery : RDocArgs := mkRDocArgs "base" (Some "mean") None.

Definition rscriptPath : Completion ExecOutput := printed "/usr/bin/Rscript".

Definition commandFailed : Thrown := ThrownError "Command failed: Rscript".

(** ** Further vocabulary, for the properties beyond the claims *)

(** [[A-Za-z]] *)
Definition isLetter (c : ascii) : bool := isUpper c || isLower c.

(** No character of the text is a line terminator. *)
Definition noLineTerminator (s : string) : Prop :=
  allChars (fun c => negb (isLineTerminator c)) s = true.

Definition isLineFeed (c : ascii) : bool := code c =? 10.

Definition cr : string := String "013"%char EmptyString.

Definition isUsageName (name : string) : bool :=
  String.eqb (toLowerCase name) "usage".

Definition isExamplesName (name : string) : bool :=
  String.eqb (toLowerCase name) "examples".

(** The content of the last [Examples] section folded, if any. *)
Definition lastExamples (secs : list (string * string)) : option string :=
  snd <$> last (filter (fun s => isExamplesName s.1 = true) secs).

(** None of the lines is a header. *)
Definition headerFree (lines : list string) : Prop :=
  Forall (fun l => isHeader l = false) lines.

(** A property that is missing, [undefined], or a string. *)
Definition optionalString (o : option JsValue) : Prop :=
  o = None \/ o = Some JsUndefined \/ exists s, o = Some (JsString s).

(** One of [description], [usage], [example] is populated. *)
Definition hasSuccessField (r : DocResult) : Prop :=
  is_Some (description r) \/ is_Some (usage r) \/ is_Some (example r).

(** A help text without any header line. *)
Definition plainDoc : string :=
  "Package: stats" +:+ nl +:+ "Version: 4.3.1" +:+ nl
  +:+ "  The R Stats Package  " +:+ nl +:+ "  more text".

(** A help text with text before its first header, and two Usage
    sections around an Arguments section. *)
Definition twoUsageDoc : string :=
  "f   package:base   R Documentation" +:+ nl +:+ nl +:+ "Title" +:+ nl
  +:+ "text before any header" +:+ nl
  +:+ "Usage:" +:+ nl +:+ "f(x)" +:+ nl
  +:+ "Arguments:" +:+ nl +:+ "x: a vector" +:+ nl
  +:+ "Usage:" +:+ nl +:+ "f(x, y)" +:+ nl
  +:+ "Examples:" +:+ nl +:+ "f(1)" +:+ nl
  +:+ "Details:" +:+ nl +:+ "None.".

Definition baseQuery : RDocArgs := mkRDocArgs "base" None None.

(** ** Strings: the executable tests meet their meaning *)

Section StringFacts.

Lemma startsWith_spec s p :
  startsWith s p = true <-> exists post, s = p +:+ post.
Proof.
  revert s; induction p as [|a p IH]; intros s; simpl.
  - destruct s; split; eauto.
  - destruct s as [|b s]; simpl.
    + split; [done | intros [post H]; discriminate].
    + rewrite andb_true_iff, Ascii.eqb_eq, IH. split.
      * intros [-> [post ->]]. by exists post.
      * intros [post H]. injection H as -> ->. eauto.
Qed.

Lemma includes_spec s sub : includes s sub = true <-> occursIn sub s.
Proof.
  unfold occursIn. induction s as [|c s IH].
  - cbn [includes]. rewrite orb_false_r, startsWith_spec. split.
    + intros [post H]. by exists "", post.
    + intros [pre [post H]]. destruct pre; [by exists post | discriminate].
  - cbn [includes]. rewrite orb_true_iff, startsWith_spec, IH. split.
    + intros [[post H] | [pre [post H]]].
      * by exists "", post.
      * exists (String c pre), post. simpl. by rewrite H.
    + intros [pre [post H]]. destruct pre as [|b pre].
      * left. by exists post.
      * right. simpl in H. injection H as -> ->. eauto.
Qed.

Lemma isEmpty_true s : isEmpty s = true <-> s = "".
Proof. destruct s; simpl; split; congruence. Qed.

Lemma trimEnd_empty s : trimEnd s = "" <-> allChars isWhiteSpace s = true.
Proof.
  induction s as [|c s IH]; simpl; [done|].
  rewrite andb_true_iff, <- IH.
  destruct (isWhiteSpace c); simpl.
  - destruct (trimEnd s); simpl; split; try done; intros [_ ?]; done.
  - split; [done | intros [? _]; done].
Qed.

Lemma trimStart_allChars s :
  allChars isWhiteSpace (trimStart s) = allChars isWhiteSpace s.
Proof.
  induction s as [|c s IH]; simpl; [done|].
  destruct (isWhiteSpace c) eqn:E; simpl; [done | by rewrite E].
Qed.

Lemma trim_empty s : trim s = "" <-> whitespaceOnly s.
Proof.
  unfold trim, whitespaceOnly. by rewrite trimEnd_empty, trimStart_allChars.
Qed.

Lemma eqb_empty s : String.eqb s "" = isEmpty s.
Proof. by destruct s. Qed.

Lemma notFound_iff doc :
  notFound doc = true <->
  doc = "" \/ whitespaceOnly doc \/ occursIn notFoundMarker doc.
Proof.
  unfold notFound.
  rewrite !orb_true_iff, isEmpty_true, includes_spec, eqb_empty,
    isEmpty_true, trim_empty.
  tauto.
Qed.

Lemma accepted_iff doc :
  accepted doc <->
  doc <> "" /\ ~ whitespaceOnly doc /\ ~ occursIn notFoundMarker doc.
Proof.
  unfold accepted. rewrite <- not_true_iff_false, notFound_iff. tauto.
Qed.

Lemma append_cons c s t : String c s +:+ t = String c (s +:+ t).
Proof. reflexivity. Qed.

Lemma append_assoc s t u : (s +:+ t) +:+ u = s +:+ t +:+ u.
Proof. induction s as [|c s IH]; [done|]. by rewrite !append_cons, IH. Qed.

Lemma append_nonempty s t : isEmpty s = false -> isEmpty (s +:+ t) = false.
Proof. by destruct s. Qed.

End StringFacts.

(** ** The fold rule, field by field *)

Section FoldFacts.

Implicit Types (r : DocResult) (name content : string).

Lemma addSection_error r name content :
  error (addSectionToResult r name content) = error r.
Proof. unfold addSectionToResult, appendToUsage. by repeat case_match. Qed.

Lemma addSection_searchResults r name content :
  searchResults (addSectionToResult r name content) = searchResults r.
Proof. unfold addSectionToResult, appendToUsage. by repeat case_match. Qed.

Lemma addSection_suggestInstall r name content :
  suggestInstall (addSectionToResult r name content) = suggestInstall r.
Proof. unfold addSectionToResult, appendToUsage. by repeat case_match. Qed.

Lemma addSection_description r name content :
  description (addSectionToResult r name content) =
  if isDescriptionName name then Some content else description r.
Proof.
  unfold addSectionToResult, appendToUsage, isDescriptionName.
  by repeat case_match.
Qed.

Lemma addSection_usage_untouched r name content :
  touchesUsage name = false ->
  usage (addSectionToResult r name content) = usage r.
Proof.
  unfold touchesUsage, addSectionToResult. cbv zeta.
  intros H. repeat (apply orb_false_elim in H as [H ?]).
  repeat match goal with E : String.eqb _ _ = false |- _ => rewrite E; clear E end.
  simpl. by repeat case_match.
Qed.

Lemma addSection_usage_congr r r' name content :
  usage r = usage r' ->
  usage (addSectionToResult r name content) =
  usage (addSectionToResult r' name content).
Proof.
  destruct r, r'; simpl; intros ->.
  unfold addSectionToResult, appendToUsage; simpl. by repeat case_match.
Qed.

Lemma foldSections_app r secs secs' :
  foldSections r (secs ++ secs') = foldSections (foldSections r secs) secs'.
Proof. apply fold_left_app. Qed.

Lemma foldSections_error r secs : error (foldSections r secs) = error r.
Proof.
  revert r; induction secs as [|s secs IH]; intros r; simpl; [done|].
  unfold foldSections in *. simpl. by rewrite IH, addSection_error.
Qed.

Lemma foldSections_searchResults r secs :
  searchResults (foldSections r secs) = searchResults r.
Proof.
  revert r; induction secs as [|s secs IH]; intros r; simpl; [done|].
  unfold foldSections in *. simpl. by rewrite IH, addSection_searchResults.
Qed.

Lemma foldSections_suggestInstall r secs :
  suggestInstall (foldSections r secs) = suggestInstall r.
Proof.
  revert r; induction secs as [|s secs IH]; intros r; simpl; [done|].
  unfold foldSections in *. simpl. by rewrite IH, addSection_suggestInstall.
Qed.

Lemma foldSections_usage_filter r r' secs :
  usage r = usage r' ->
  usage (foldSections r secs) =
  usage (foldSections r' (filter (fun s => touchesUsage s.1 = true) secs)).
Proof.
  revert r r'; induction secs as [|[name content] secs IH]; intros r r' H.
  - done.
  - rewrite filter_cons. simpl. destruct (touchesUsage name) eqn:E.
    + rewrite decide_True by done. unfold foldSections in *. simpl.
      apply IH. by apply addSection_usage_congr.
    + rewrite decide_False by (by intros ?). unfold foldSections in *. simpl.
      apply IH. by rewrite addSection_usage_untouched.
Qed.

Lemma foldSections_usage_none r secs :
  usage r = None ->
  (forall name content, (name, content) ∈ secs -> touchesUsage name = false) ->
  usage (foldSections r secs) = None.
Proof.
  revert r; induction secs as [|[name content] secs IH]; intros r Hr Hs.
  - done.
  - unfold foldSections in *. simpl. apply IH.
    + rewrite addSection_usage_untouched; [done|].
      apply (Hs name content). by left.
    + intros n c Hin. apply (Hs n c). by right.
Qed.

Lemma foldSections_description r secs :
  description (foldSections r secs) =
  match lastDescription secs with
  | Some c => Some c
  | None => description r
  end.
Proof.
  unfold lastDescription.
  induction secs as [|[name content] secs IH] using rev_ind; [done|].
  rewrite foldSections_app, filter_app, filter_cons, filter_nil.
  unfold foldSections at 1. simpl. rewrite addSection_description.
  destruct (isDescriptionName name) eqn:E.
  - rewrite decide_True by done. by rewrite last_snoc.
  - rewrite decide_False by (by intros ?). by rewrite app_nil_r.
Qed.

End FoldFacts.

(** ** The scanning loop *)

Section ScanFacts.

Lemma flush_emitted st :
  flush st =
  foldSections (result st) (emitted (currentSection st) (sectionContent st)).
Proof. unfold flush, emitted. by case_match. Qed.

(** The loop is the fold rule applied to the sections it emits. *)
Lemma scanFrom_sections st rest :
  scanFrom st rest =
  foldSections (result st)
    (sectionsFrom (currentSection st) (sectionContent st) rest).
Proof.
  revert st; induction rest as [|line rest IH]; intros st.
  - apply flush_emitted.
  - unfold scanFrom in *. simpl. unfold scanLine at 2.
    destruct (isHeader line).
    + rewrite IH. simpl. by rewrite foldSections_app, flush_emitted.
    + by rewrite IH.
Qed.

Lemma initialResult_returns lines :
  initialResult lines = inr (preamble lines).
Proof.
  unfold initialResult, trimLine2, preamble.
  destruct (2 <? length lines) eqn:E.
  - apply Nat.ltb_lt in E. destruct (lookup_lt_is_Some_2 lines 2 E) as [l ->].
    done.
  - apply Nat.ltb_ge in E. by rewrite (lookup_ge_None_2 lines 2).
Qed.

Lemma parseLines_returns lines :
  parseLines lines =
  inr (foldSections (preamble lines) (sectionsFrom "" [] (drop 3 lines))).
Proof.
  unfold parseLines. rewrite initialResult_returns.
  by rewrite scanFrom_sections.
Qed.

Lemma parseRDoc_accepted doc packageName sym :
  accepted doc ->
  parseRDoc doc packageName sym =
  inr (usageFallback doc sym
         (foldSections (preamble (split_nl doc)) (foldedSections doc))).
Proof.
  unfold accepted, parseRDoc. intros ->. by rewrite parseLines_returns.
Qed.

(** A header line with no content behind it leaves the loop where it would
    be without that line. *)
Lemma scanLine_header_flush st h :
  isHeader h = true -> flush (scanLine st h) = flush st.
Proof.
  unfold scanLine. intros ->. unfold flush at 1. simpl.
  by rewrite andb_false_r.
Qed.

Lemma scanLine_header_twice st h h' :
  isHeader h = true -> isHeader h' = true ->
  scanLine (scanLine st h) h' = scanLine st h'.
Proof.
  intros H H'. unfold scanLine at 1. rewrite H'.
  rewrite (scanLine_header_flush _ _ H). unfold scanLine. by rewrite H'.
Qed.

Lemma scanFrom_drop_empty_section st before h rest :
  isHeader h = true -> closesAtOnce rest ->
  scanFrom st (before ++ h :: rest) = scanFrom st (before ++ rest).
Proof.
  intros H Hrest. unfold scanFrom. rewrite !fold_left_app. simpl.
  destruct Hrest as [-> | (h' & rest' & -> & H')]; simpl.
  - by apply scanLine_header_flush.
  - by rewrite scanLine_header_twice.
Qed.

End ScanFacts.

(** ** The parser: what the specification states *)

Section ParserClaims.

Implicit Types (doc packageName : string) (sym : option string).

Lemma usageFallback_description doc sym r :
  description (usageFallback doc sym r) = description r.
Proof. unfold usageFallback. by case_match. Qed.

Lemma usageFallback_error doc sym r :
  error (usageFallback doc sym r) = error r.
Proof. unfold usageFallback. by case_match. Qed.

Lemma preamble_usage lines : usage (preamble lines) = None.
Proof. unfold preamble. by destruct (lines !! 2). Qed.

Lemma preamble_error lines : error (preamble lines) = None.
Proof. unfold preamble. by destruct (lines !! 2). Qed.

Lemma emitted_nil cur : emitted cur [] = [].
Proof. unfold emitted. simpl. by rewrite andb_false_r. Qed.

Lemma sectionsFrom_drop_empty_section cur content before h rest :
  isHeader h = true -> closesAtOnce rest ->
  sectionsFrom cur content (before ++ h :: rest) =
  sectionsFrom cur content (before ++ rest).
Proof.
  intros H Hrest. revert cur content.
  induction before as [|l before IH]; intros cur content; simpl.
  - rewrite H. destruct Hrest as [-> | (h' & rest' & -> & H')]; simpl.
    + by rewrite emitted_nil, app_nil_r.
    + by rewrite H', emitted_nil.
  - destruct (isHeader l); by rewrite IH.
Qed.

(** C1, as amended.  When the text is empty, consists of white space only or
    contains the marker "Documentation not found", [parseRDoc] returns the
    result whose only field is [error]; the message names
    [<packageName>::<symbol>] when a non-empty symbol was passed, and
    [package <packageName>] when the symbol is absent or is the empty
    string.  The result does not depend on the lines of the text. *)
Theorem parseRDoc_not_found doc packageName sym :
  doc = "" \/ whitespaceOnly doc \/ occursIn notFoundMarker doc ->
  parseRDoc doc packageName sym =
  inr (mkDocResult None None None
         (Some ("Documentation not found for " +:+
                match sym with
                | Some (String c s) => packageName +:+ "::" +:+ String c s
                | Some EmptyString | None => "package " +:+ packageName
                end))
         None None).
Proof.
  intros H. apply notFound_iff in H. unfold parseRDoc. rewrite H.
  unfold errorResult, notFoundMessage. by destruct sym as [[|c s]|].
Qed.

Lemma parseRDoc_not_found_witness :
  whitespaceOnly " " /\
  parseRDoc " " "base" (Some "mean") =
  inr (mkDocResult None None None
         (Some "Documentation not found for base::mean") None None).
Proof.
  split; [reflexivity|].
  apply (parseRDoc_not_found " " "base" (Some "mean")).
  right; left; reflexivity.
Defined.

(** C1, as worded, fails: a symbol that is present but empty gets the
    package message, not the [<packageName>::<symbol>] one. *)
Lemma parseRDoc_not_found_empty_symbol :
  symbolPresent (Some "") /\
  parseRDoc "" "base" (Some "") =
  inr (errorResult "Documentation not found for package base") /\
  parseRDoc "" "base" (Some "") <>
  inr (errorResult ("Documentation not found for " +:+ "base" +:+ "::" +:+ "")).
Proof. split; [by eexists|]. split; [reflexivity | discriminate]. Qed.

(** C2, as amended.  For every text that is not empty, does not consist of
    white space only and does not contain the marker (see [accepted_iff]),
    [parseRDoc] returns a result without [error] field. *)
Theorem parseRDoc_accepted_no_error doc packageName sym :
  accepted doc ->
  exists r, parseRDoc doc packageName sym = inr r /\ error r = None.
Proof.
  intros H. eexists. split; [by apply parseRDoc_accepted|].
  by rewrite usageFallback_error, foldSections_error, preamble_error.
Qed.

Lemma parseRDoc_accepted_no_error_witness :
  accepted meanDoc /\
  exists r, parseRDoc meanDoc "base" (Some "mean") = inr r /\ error r = None.
Proof.
  split; [reflexivity|].
  apply (parseRDoc_accepted_no_error meanDoc "base" (Some "mean")).
  reflexivity.
Defined.

(** C2, as worded, fails: a text of one space is not empty and does not
    contain the marker, and the result has an [error] field. *)
Lemma parseRDoc_blank_has_error :
  " " <> "" /\ ~ occursIn notFoundMarker " " /\
  exists r, parseRDoc " " "base" None = inr r /\
            error r = Some "Documentation not found for package base" /\
            error r <> None.
Proof.
  split; [discriminate|]. split.
  - rewrite <- includes_spec. discriminate.
  - eexists. split; [reflexivity|]. split; [reflexivity | discriminate].
Qed.

(** C3, as amended.  For every accepted text in which the sections that
    write [usage] are Usage, Arguments and Value, in that order, with
    contents U, A and V, and U is not the empty string, the [usage] field is
    U, a blank line, the line "## Arguments", a blank line, A, a blank line,
    the line "## Return Value", a blank line, and V. *)
Theorem parseRDoc_usage_fold_order doc packageName sym U A V :
  accepted doc ->
  usageSections doc = [("Usage", U); ("Arguments", A); ("Value", V)] ->
  U <> "" ->
  exists r,
    parseRDoc doc packageName sym = inr r /\
    usage r =
    Some (U +:+ nl +:+ nl +:+ "## Arguments" +:+ nl +:+ nl +:+ A
          +:+ nl +:+ nl +:+ "## Return Value" +:+ nl +:+ nl +:+ V).
Proof.
  intros Hacc Hsecs HU. eexists. split; [by apply parseRDoc_accepted|].
  set (r0 := preamble (split_nl doc)).
  assert (usage (foldSections r0 (foldedSections doc)) =
          Some (U +:+ nl +:+ nl +:+ "## Arguments" +:+ nl +:+ nl +:+ A
                +:+ nl +:+ nl +:+ "## Return Value" +:+ nl +:+ nl +:+ V))
    as Hu.
  { rewrite (foldSections_usage_filter r0 r0) by done.
    unfold usageSections in Hsecs. rewrite Hsecs.
    destruct U as [|c U]; [done|]. destruct r0; simpl.
    rewrite !append_assoc. reflexivity. }
  unfold usageFallback. rewrite Hu. destruct U; [done|]. done.
Qed.

Lemma parseRDoc_usage_fold_order_witness :
  accepted meanDoc /\
  exists r,
    parseRDoc meanDoc "base" (Some "mean") = inr r /\
    usage r =
    Some ("  mean(x, ...)" +:+ nl +:+ nl +:+ "## Arguments" +:+ nl +:+ nl
          +:+ "  x: an R object." +:+ nl +:+ nl +:+ "## Return Value"
          +:+ nl +:+ nl +:+ "  The mean.").
Proof.
  split; [reflexivity|].
  apply (parseRDoc_usage_fold_order meanDoc "base" (Some "mean")
           "  mean(x, ...)" "  x: an R object." "  The mean.");
    [reflexivity | reflexivity | discriminate].
Defined.

(** C3, as worded, fails: when the content U of the Usage section is the
    empty string (one blank line), the Arguments block is not separated from
    it by a blank line. *)
Lemma parseRDoc_usage_blank_usage :
  accepted blankUsageDoc /\
  usageSections blankUsageDoc =
  [("Usage", ""); ("Arguments", "x: a vector"); ("Value", "a number")] /\
  exists r,
    parseRDoc blankUsageDoc "base" (Some "f") = inr r /\
    usage r =
    Some ("## Arguments" +:+ nl +:+ nl +:+ "x: a vector" +:+ nl +:+ nl
          +:+ "## Return Value" +:+ nl +:+ nl +:+ "a number") /\
    usage r <>
    Some ("" +:+ nl +:+ nl +:+ "## Arguments" +:+ nl +:+ nl +:+ "x: a vector"
          +:+ nl +:+ nl +:+ "## Return Value" +:+ nl +:+ nl +:+ "a number").
Proof.
  split; [reflexivity|]. split; [reflexivity|].
  eexists. split; [reflexivity|]. split; [reflexivity | discriminate].
Qed.

(** C4, as amended.  For every accepted text in which no folded section
    writes [usage] (no Usage, Arguments, Value, Details, References, Seealso,
    Author or Note section), [parseRDoc] sets [usage] to the whole text when
    the symbol is absent or is the empty string, and leaves [usage] absent
    when a non-empty symbol was passed. *)
Theorem parseRDoc_usage_fallback doc packageName sym :
  accepted doc ->
  usageSections doc = [] ->
  exists r,
    parseRDoc doc packageName sym = inr r /\
    usage r =
    match sym with
    | Some (String _ _) => None
    | Some EmptyString | None => Some doc
    end.
Proof.
  intros Hacc Hsecs. eexists. split; [by apply parseRDoc_accepted|].
  set (r0 := preamble (split_nl doc)).
  assert (usage (foldSections r0 (foldedSections doc)) = None) as Hu.
  { rewrite (foldSections_usage_filter r0 r0) by done.
    unfold usageSections in Hsecs. rewrite Hsecs. apply preamble_usage. }
  unfold usageFallback. rewrite Hu. by destruct sym as [[|c s]|].
Qed.

Lemma parseRDoc_usage_fallback_witness :
  accepted "Overview of the package" /\
  exists r,
    parseRDoc "Overview of the package" "base" None = inr r /\
    usage r = Some "Overview of the package".
Proof.
  split; [reflexivity|].
  apply (parseRDoc_usage_fallback "Overview of the package" "base" None);
    reflexivity.
Defined.

(** C4, as worded, fails: with a symbol that is present but empty, [usage]
    does not stay absent. *)
Lemma parseRDoc_usage_fallback_empty_symbol :
  symbolPresent (Some "") /\
  accepted "Overview of the package" /\
  usageSections "Overview of the package" = [] /\
  exists r,
    parseRDoc "Overview of the package" "base" (Some "") = inr r /\
    usage r = Some "Overview of the package" /\ usage r <> None.
Proof.
  split; [by eexists|]. split; [reflexivity|]. split; [reflexivity|].
  eexists. split; [reflexivity|]. split; [reflexivity | discriminate].
Qed.

(** C5.  For every accepted text, [parseRDoc] returns normally.  When the
    text has more than two lines, the result starts with [description] set
    to the trimmed third line, and [description] is in the end the content
    of the last Description section folded, or that trimmed line when no
    Description section is folded.  When the text has at most two lines, the
    result starts empty, no section is folded and [description] is
    absent. *)
Theorem parseRDoc_description_preamble doc packageName sym :
  accepted doc ->
  exists r,
    parseRDoc doc packageName sym = inr r /\
    (2 < length (split_nl doc) ->
     exists l,
       split_nl doc !! 2 = Some l /\
       initialResult (split_nl doc) =
       inr (mkDocResult (Some (trim l)) None None None None None) /\
       description r =
       Some (default (trim l) (lastDescription (foldedSections doc)))) /\
    (length (split_nl doc) <= 2 ->
     initialResult (split_nl doc) = inr emptyResult /\
     foldedSections doc = [] /\ description r = None).
Proof.
  intros Hacc. eexists. split; [by apply parseRDoc_accepted|].
  rewrite usageFallback_description, foldSections_description.
  rewrite initialResult_returns. unfold preamble, foldedSections. split.
  - intros Hlen. destruct (lookup_lt_is_Some_2 _ _ Hlen) as [l Hl].
    exists l. split; [done|]. rewrite Hl. simpl. split; [done|].
    by destruct (lastDescription _).
  - intros Hlen. rewrite drop_ge by lia.
    rewrite (lookup_ge_None_2 _ 2) by lia. done.
Qed.

Lemma parseRDoc_description_preamble_witness :
  accepted emptyDetailsDoc /\
  exists r,
    parseRDoc emptyDetailsDoc "base" (Some "f") = inr r /\
    (2 < length (split_nl emptyDetailsDoc) ->
     exists l,
       split_nl emptyDetailsDoc !! 2 = Some l /\
       initialResult (split_nl emptyDetailsDoc) =
       inr (mkDocResult (Some (trim l)) None None None None None) /\
       description r =
       Some (default (trim l)
               (lastDescription (foldedSections emptyDetailsDoc)))) /\
    (length (split_nl emptyDetailsDoc) <= 2 ->
     initialResult (split_nl emptyDetailsDoc) = inr emptyResult /\
     foldedSections emptyDetailsDoc = [] /\ description r = None).
Proof.
  split; [reflexivity|].
  apply (parseRDoc_description_preamble emptyDetailsDoc "base" (Some "f")).
  reflexivity.
Defined.

(** C10.  In an accepted text, a header line among the scanned lines (index
    3 onwards) that is followed by another header line or by the end of the
    text has no effect: the fold rule is called for the same sections, and
    the parser returns the same result, as for the lines without that
    header. *)
Theorem parseRDoc_empty_section_dropped doc packageName sym before h rest :
  accepted doc ->
  split_nl doc = before ++ h :: rest ->
  3 <= length before ->
  isHeader h = true ->
  closesAtOnce rest ->
  foldedSections doc = sectionsFrom "" [] (drop 3 (before ++ rest)) /\
  exists r,
    parseLines (before ++ rest) = inr r /\
    parseRDoc doc packageName sym = inr (usageFallback doc sym r).
Proof.
  intros Hacc Hlines Hlen Hh Hrest.
  assert (foldedSections doc = sectionsFrom "" [] (drop 3 (before ++ rest)))
    as Hsecs.
  { unfold foldedSections. rewrite Hlines, !drop_app_le by done.
    by apply sectionsFrom_drop_empty_section. }
  split; [done|]. eexists. split; [apply parseLines_returns|].
  rewrite parseRDoc_accepted by done. rewrite Hsecs. do 3 f_equal.
  unfold preamble. rewrite Hlines, !lookup_app_l by lia. done.
Qed.

Lemma parseRDoc_empty_section_dropped_witness :
  accepted emptyDetailsDoc /\
  exists r,
    parseLines
      (["f   package:base   R Documentation"; ""; "Title"; "Description:";
        "Does f."] ++ ["Usage:"; "f(x)"]) = inr r /\
    parseRDoc emptyDetailsDoc "base" (Some "f") =
    inr (usageFallback emptyDetailsDoc (Some "f") r).
Proof.
  split; [reflexivity|].
  apply (parseRDoc_empty_section_dropped emptyDetailsDoc "base" (Some "f")
           ["f   package:base   R Documentation"; ""; "Title"; "Description:";
            "Does f."] "Details:" ["Usage:"; "f(x)"]).
  - reflexivity.
  - reflexivity.
  - simpl. lia.
  - reflexivity.
  - right. exists "Usage:", ["f(x)"]. split; reflexivity.
Defined.

End ParserClaims.

(** ** The argument validator *)

Section ValidatorClaims.

Lemma typeof_string v :
  String.eqb (typeof v) "string" = true -> exists s, v = JsString s.
Proof. destruct v; simpl; try discriminate. eauto. Qed.

Lemma typeof_string_or_undefined v :
  String.eqb (typeof v) "string" || isUndefined v = true ->
  stringOrUndefined v.
Proof.
  intros [H | H]%orb_true_iff.
  - right. by apply typeof_string.
  - left. by destruct v.
Qed.

(** C9, as amended.  Every value accepted by [isRDocArgs] is an object whose
    [package] property is a string and whose [symbol] and [projectPath]
    properties are each [undefined] or a string; nothing is required of the
    length of these strings. *)
Theorem isRDocArgs_accepts args :
  isRDocArgs args = true ->
  exists props name,
    args = JsObject props /\
    getProp args "package" = JsString name /\
    stringOrUndefined (getProp args "symbol") /\
    stringOrUndefined (getProp args "projectPath").
Proof.
  unfold isRDocArgs. rewrite !andb_true_iff.
  intros [[[[Hobj Hnull] Hpkg] Hsym] Hpath].
  apply typeof_string in Hpkg as [name Hname].
  destruct args as [| | | | |items|props]; try discriminate.
  exists props, name. split; [done|]. split; [done|].
  split; by apply typeof_string_or_undefined.
Qed.

Lemma isRDocArgs_accepts_witness :
  exists props name,
    meanArgs = JsObject props /\
    getProp meanArgs "package" = JsString name /\
    stringOrUndefined (getProp meanArgs "symbol") /\
    stringOrUndefined (getProp meanArgs "projectPath").
Proof. apply (isRDocArgs_accepts meanArgs). vm_compute. reflexivity. Defined.

(** C9, as worded, fails: the validator accepts an object whose three
    properties are the empty string. *)
Lemma isRDocArgs_accepts_empty_strings :
  isRDocArgs emptyStringArgs = true /\
  getProp emptyStringArgs "package" = JsString "" /\
  getProp emptyStringArgs "symbol" = JsString "" /\
  getProp emptyStringArgs "projectPath" = JsString "".
Proof. vm_compute. repeat split. Qed.

End ValidatorClaims.

(** ** The handlers, case by case *)

Section HandlerFacts.

Context {World : Type}.
Variable run : string -> World -> Completion ExecOutput * World.
Implicit Types (args : RDocArgs) (env : Env World).

Lemma parseRDoc_returns doc packageName sym :
  exists r, parseRDoc doc packageName sym = inr r.
Proof.
  unfold parseRDoc. destruct (notFound doc); [by eexists|].
  rewrite parseLines_returns. by eexists.
Qed.

(** The test the examples text goes through. *)
Lemma examples_test text :
  negb (isEmpty text) && negb (String.eqb (trim text) "") =
  negb (allChars isWhiteSpace text).
Proof.
  rewrite eqb_empty. destruct (allChars isWhiteSpace text) eqn:E.
  - apply trim_empty in E. rewrite E. apply andb_false_r.
  - destruct text as [|c text]; [done|].
    destruct (trim (String c text)) eqn:T; [|done].
    apply trim_empty in T. unfold whitespaceOnly in T. congruence.
Qed.

Ltac run_handler :=
  cbv beta iota zeta delta
    [describeRPackage getRPackageDoc withExamples andThen tryCatch
     logger_info logger_error isRInstalled isRPackageInstalled execAsync
     resolve complete isToolAvailable isPackageAvailable afterToolCheck
     afterPackageCheck helpCommand world issued logged fst snd] in *;
  cbn [negb] in *.

Tactic Notation "run_command" constr(cmd) constr(w0)
    "as" ident(e) ident(out) ident(w) :=
  let E := fresh "E" in
  destruct (run cmd w0) as [[e|out] w] eqn:E;
  run_handler; try discriminate.

Lemma describe_tool_missing args env :
  isToolAvailable run (world env) = false ->
  describeRPackage run args env =
  (inr notInstalledR,
   mkEnv (afterToolCheck run (world env)) (issued env ++ [whichCommand])
     (logged env ++ [describeInfo args])).
Proof.
  intros H. destruct env as [w0 iss lg]. run_handler.
  run_command whichCommand w0 as e1 o1 w1. done.
Qed.

Lemma describe_package_missing args env :
  isToolAvailable run (world env) = true ->
  isPackageAvailable run (package args) (world env) = false ->
  describeRPackage run args env =
  (inr (notInstalledPackage (package args)),
   mkEnv (afterPackageCheck run (package args) (world env))
     ((issued env ++ [whichCommand]) ++ [requireCommand (package args)])
     (logged env ++ [describeInfo args])).
Proof.
  intros H1 H2. destruct env as [w0 iss lg]. run_handler.
  run_command whichCommand w0 as e1 o1 w1.
  run_command (requireCommand (package args)) w1 as e2 o2 w2; [done|].
  rewrite H2. done.
Qed.

Lemma describe_fetch args env :
  isToolAvailable run (world env) = true ->
  isPackageAvailable run (package args) (world env) = true ->
  describeRPackage run args env =
  let cmd := helpCommand (package args) (symbol args) in
  let issued' := ((issued env ++ [whichCommand])
                  ++ [requireCommand (package args)]) ++ [cmd] in
  match run cmd (afterPackageCheck run (package args) (world env)) with
  | (inr out, w) =>
      (parseRDoc (stdout out) (package args) (symbol args),
       mkEnv w issued' (logged env ++ [describeInfo args]))
  | (inl e, w) =>
      (inr (fetchFailed e),
       mkEnv w issued'
         ((logged env ++ [describeInfo args])
          ++ [LogError ("Error getting R documentation for "
                        +:+ package args +:+ ":") e]))
  end.
Proof.
  intros H1 H2. destruct env as [w0 iss lg]. run_handler.
  run_command whichCommand w0 as e1 o1 w1.
  run_command (requireCommand (package args)) w1 as e2 o2 w2.
  rewrite H2. run_handler.
  match goal with |- context [run ?c w2] => run_command c w2 as e3 o3 w3 end;
    [done|].
  destruct (parseRDoc_returns (stdout o3) (package args) (symbol args))
    as [r ->]. done.
Qed.

Lemma getDoc_tool_missing args env :
  isToolAvailable run (world env) = false ->
  (getRPackageDoc run args env).1 = inr notInstalledR.
Proof.
  intros H. destruct env as [w0 iss lg]. run_handler.
  run_command whichCommand w0 as e1 o1 w1. done.
Qed.

Lemma getDoc_package_missing args env :
  isToolAvailable run (world env) = true ->
  isPackageAvailable run (package args) (world env) = false ->
  (getRPackageDoc run args env).1 = inr (notInstalledPackage (package args)).
Proof.
  intros H1 H2. destruct env as [w0 iss lg]. run_handler.
  run_command whichCommand w0 as e1 o1 w1.
  run_command (requireCommand (package args)) w1 as e2 o2 w2; [done|].
  rewrite H2. done.
Qed.

(** The symbol branch of [getRPackageDoc], once both checks have passed. *)
Lemma getDoc_symbol args env :
  isToolAvailable run (world env) = true ->
  isPackageAvailable run (package args) (world env) = true ->
  truthy (symbol args) = true ->
  getRPackageDoc run args env =
  let name := default "" (symbol args) in
  let issued2 := (issued env ++ [whichCommand])
                 ++ [requireCommand (package args)] in
  let issued3 := issued2 ++ [helpSymbolCommand name (package args)] in
  let issued4 := issued3 ++ [examplesCommand name (package args)] in
  match run (helpSymbolCommand name (package args))
          (afterPackageCheck run (package args) (world env)) with
  | (inl e, w) =>
      (inr (fetchFailed e),
       mkEnv w issued3
         ((logged env ++ [fullDocInfo args])
          ++ [LogError ("Error getting full R documentation for "
                        +:+ package args +:+ ":") e]))
  | (inr help, w) =>
      match parseRDoc (stdout help) (package args) (symbol args) with
      | inl e =>
          (inr (fetchFailed e),
           mkEnv w issued3
             ((logged env ++ [fullDocInfo args])
              ++ [LogError ("Error getting full R documentation for "
                            +:+ package args +:+ ":") e]))
      | inr parsed =>
          match run (examplesCommand name (package args)) w with
          | (inl _, w') =>
              (inr parsed,
               mkEnv w' issued4
                 ((logged env ++ [fullDocInfo args])
                  ++ [LogInfo ("No examples found for " +:+ package args
                               +:+ "::" +:+ name)]))
          | (inr ex, w') =>
              (inr (if negb (allChars isWhiteSpace (stdout ex))
                    then set_example parsed (stdout ex) else parsed),
               mkEnv w' issued4 (logged env ++ [fullDocInfo args]))
          end
      end
  end.
Proof.
  intros H1 H2 H3. destruct env as [w0 iss lg]. run_handler.
  run_command whichCommand w0 as e1 o1 w1.
  run_command (requireCommand (package args)) w1 as e2 o2 w2.
  rewrite H2, H3. run_handler.
  match goal with |- context [run ?c w2] => run_command c w2 as e3 o3 w3 end;
    [done|].
  destruct (parseRDoc (stdout o3) (package args) (symbol args))
    as [e|parsed]; [done|].
  match goal with |- context [run ?c w3] => run_command c w3 as e4 o4 w4 end;
    [done|].
  rewrite <- examples_test.
  destruct (negb (isEmpty (stdout o4)) && _); run_handler; done.
Qed.

(** The package branch of [getRPackageDoc], once both checks have passed. *)
Lemma getDoc_package args env :
  isToolAvailable run (world env) = true ->
  isPackageAvailable run (package args) (world env) = true ->
  truthy (symbol args) = false ->
  (getRPackageDoc run args env).1 =
  match run (helpPackageCommand (package args))
          (afterPackageCheck run (package args) (world env)) with
  | (inl e, _) => inr (fetchFailed e)
  | (inr overview, w) =>
      match run (descCommand (package args)) w with
      | (inl e, _) => inr (fetchFailed e)
      | (inr desc, w') =>
          match run (functionsCommand (package args)) w' with
          | (inl e, _) => inr (fetchFailed e)
          | (inr functions, _) =>
              inr (mkDocResult (Some (stdout desc))
                     (Some ("# Package Overview" +:+ nl +:+ nl
                            +:+ stdout overview +:+ nl +:+ nl
                            +:+ "# Exported Functions" +:+ nl +:+ nl
                            +:+ stdout functions))
                     None None None None)
          end
      end
  end.
Proof.
  intros H1 H2 H3. destruct env as [w0 iss lg]. run_handler.
  run_command whichCommand w0 as e1 o1 w1.
  run_command (requireCommand (package args)) w1 as e2 o2 w2.
  rewrite H2, H3. run_handler.
  run_command (helpPackageCommand (package args)) w2 as e3 o3 w3; [done|].
  run_command (descCommand (package args)) w3 as e4 o4 w4; [done|].
  run_command (functionsCommand (package args)) w4 as e5 o5 w5; done.
Qed.

End HandlerFacts.

(** ** The handlers: what the specification states *)

Section HandlerClaims.

Context {World : Type}.
Variable run : string -> World -> Completion ExecOutput * World.
Implicit Types (args : RDocArgs) (env : Env World).

(** C6.  [describeRPackage] checks the tool first: when that check fails it
    returns the "R is not installed" error without [suggestInstall], and
    [which Rscript] is the only command it has issued.  When the tool check
    passes and the package check fails, it returns the error
    "Package <name> is not installed. ..." with [suggestInstall] true and no
    description, usage or example, having issued the two checks in that
    order.  Only when both checks pass is the help text fetched, and the
    result is then that of [parseRDoc] on it (or the fetch failure). *)
Theorem describeRPackage_checks args env :
  let out := describeRPackage run args env in
  let name := package args in
  (isToolAvailable run (world env) = false ->
   out.1 =
   inr (mkDocResult None None None
          (Some "R is not installed or not in the PATH. Please install R and make sure it's available in your PATH.")
          None None) /\
   issued out.2 = issued env ++ [whichCommand]) /\
  (isToolAvailable run (world env) = true ->
   isPackageAvailable run name (world env) = false ->
   out.1 =
   inr (mkDocResult None None None
          (Some ("Package " +:+ name
                 +:+ " is not installed. Try installing it with 'install.packages("
                 +:+ dquote +:+ name +:+ dquote +:+ ")' in R."))
          None (Some true)) /\
   issued out.2 = issued env ++ [whichCommand; requireCommand name]) /\
  (isToolAvailable run (world env) = true ->
   isPackageAvailable run name (world env) = true ->
   issued out.2 =
   issued env
   ++ [whichCommand; requireCommand name; helpCommand name (symbol args)] /\
   out.1 =
   match (run (helpCommand name (symbol args))
            (afterPackageCheck run name (world env))).1 with
   | inr text => parseRDoc (stdout text) name (symbol args)
   | inl e => inr (fetchFailed e)
   end).
Proof.
  cbv zeta. split; [|split].
  - intros H. by rewrite describe_tool_missing.
  - intros H1 H2. rewrite describe_package_missing by done.
    by rewrite <- app_assoc.
  - intros H1 H2. rewrite describe_fetch by done. cbv zeta.
    destruct (run _ (afterPackageCheck _ _ _)) as [[e|text] w]; simpl;
      by rewrite <- !app_assoc.
Qed.

(** C7.  In the symbol branch of [getRPackageDoc] (a non-empty symbol, both
    checks passed, help text fetched), the call returns the parsed help
    result unchanged when the examples fetch raises, which is logged, or
    when it returns a text of white space only (the empty text included);
    when it returns any other text, the result is the parsed help result
    with [example] set to that text. *)
Theorem getRPackageDoc_examples args env name help w :
  symbol args = Some name ->
  name <> "" ->
  isToolAvailable run (world env) = true ->
  isPackageAvailable run (package args) (world env) = true ->
  run (helpSymbolCommand name (package args))
    (afterPackageCheck run (package args) (world env)) = (inr help, w) ->
  let out := getRPackageDoc run args env in
  exists parsed,
    parseRDoc (stdout help) (package args) (Some name) = inr parsed /\
    match (run (examplesCommand name (package args)) w).1 with
    | inl _ =>
        out.1 = inr parsed /\
        last (logged out.2) =
        Some (LogInfo ("No examples found for " +:+ package args +:+ "::"
                       +:+ name))
    | inr ex =>
        (whitespaceOnly (stdout ex) -> out.1 = inr parsed) /\
        (~ whitespaceOnly (stdout ex) ->
         out.1 =
         inr (mkDocResult (description parsed) (usage parsed)
                (Some (stdout ex)) (error parsed) (searchResults parsed)
                (suggestInstall parsed)))
    end.
Proof.
  intros Hsym Hname H1 H2 Hhelp. cbv zeta.
  assert (truthy (symbol args) = true) as H3.
  { rewrite Hsym. by destruct name. }
  rewrite getDoc_symbol by done. cbv zeta. rewrite Hsym. simpl default.
  rewrite Hhelp.
  destruct (parseRDoc_returns (stdout help) (package args) (Some name))
    as [parsed Hparsed].
  exists parsed. split; [done|]. rewrite Hparsed.
  destruct (run (examplesCommand name (package args)) w) as [[e|ex] w'];
    simpl fst.
  - split; [done|]. simpl. by rewrite last_snoc.
  - unfold whitespaceOnly. simpl.
    destruct (allChars isWhiteSpace (stdout ex)); simpl; split; done.
Qed.

(** C8.  Neither handler lets an exception out: each returns a result for
    every query, world and behaviour of the command runner.  When both
    checks have passed and the fetch of the help text raises, each returns
    the result whose only field is [error], with value
    "Failed to fetch R documentation: " followed by the message of what was
    raised; so does [getRPackageDoc] when, for a package query, the fetch of
    the description or of the function list raises. *)
Theorem handlers_never_raise args env :
  let name := package args in
  let failed e :=
    mkDocResult None None None
      (Some ("Failed to fetch R documentation: " +:+ errorMessageOf e))
      None None in
  (exists r, (describeRPackage run args env).1 = inr r) /\
  (exists r, (getRPackageDoc run args env).1 = inr r) /\
  (isToolAvailable run (world env) = true ->
   isPackageAvailable run name (world env) = true ->
   forall e,
     (run (helpCommand name (symbol args))
        (afterPackageCheck run name (world env))).1 = inl e ->
     (describeRPackage run args env).1 = inr (failed e) /\
     (getRPackageDoc run args env).1 = inr (failed e)) /\
  (isToolAvailable run (world env) = true ->
   isPackageAvailable run name (world env) = true ->
   truthy (symbol args) = false ->
   forall overview w e,
     run (helpPackageCommand name) (afterPackageCheck run name (world env)) =
     (inr overview, w) ->
     (run (descCommand name) w).1 = inl e \/
     (exists desc w',
        run (descCommand name) w = (inr desc, w') /\
        (run (functionsCommand name) w').1 = inl e) ->
     (getRPackageDoc run args env).1 = inr (failed e)).
Proof.
  cbv zeta.
  destruct (isToolAvailable run (world env)) eqn:H1.
  2:{ split; [|split; [|split]]; try done.
      - rewrite describe_tool_missing by done. by eexists.
      - rewrite getDoc_tool_missing by done. by eexists. }
  destruct (isPackageAvailable run (package args) (world env)) eqn:H2.
  2:{ split; [|split; [|split]]; try done.
      - rewrite describe_package_missing by done. by eexists.
      - rewrite getDoc_package_missing by done. by eexists. }
  rewrite describe_fetch by done. cbv zeta.
  destruct (truthy (symbol args)) eqn:H3.
  - rewrite getDoc_symbol by done. cbv zeta. unfold helpCommand. rewrite H3.
    destruct (run (helpSymbolCommand _ _) _) as [[e|help] w]; simpl.
    + split; [by eexists|]. split; [by eexists|]. split; [|done].
      intros _ _ e' [= <-]. done.
    + destruct (parseRDoc_returns (stdout help) (package args) (symbol args))
        as [parsed ->].
      split; [by eexists|]. split; [|done].
      destruct (run (examplesCommand _ _) w) as [[e|ex] w']; by eexists.
  - rewrite getDoc_package by done. unfold helpCommand. rewrite H3.
    destruct (run (helpPackageCommand _) _) as [[e|overview] w]; simpl.
    + split; [by eexists|]. split; [by eexists|]. split.
      * intros _ _ e' [= <-]. done.
      * intros _ _ _ overview w' e' [=].
    + destruct (parseRDoc_returns (stdout overview) (package args)
                  (symbol args)) as [parsed ->].
      split; [by eexists|].
      destruct (run (descCommand _) w) as [[e|desc] w'] eqn:Edesc.
      * split; [by eexists|]. split; [done|].
        intros _ _ _ overview' w'' e' [= <- <-]. rewrite Edesc. simpl.
        intros [[= <-] | (desc & w3 & [=] & _)]. done.
      * destruct (run (functionsCommand _) w') as [[e|functions] w'']
          eqn:Efun.
        -- split; [by eexists|]. split; [done|].
           intros _ _ _ overview' w3 e' [= <- <-]. rewrite Edesc. simpl.
           intros [[=] | (desc' & w4 & [= <- <-] & Hf)].
           rewrite Efun in Hf. simpl in Hf. by injection Hf as <-.
        -- split; [by eexists|]. split; [done|].
           intros _ _ _ overview' w3 e' [= <- <-]. rewrite Edesc. simpl.
           intros [[=] | (desc' & w4 & [= <- <-] & Hf)].
           rewrite Efun in Hf. discriminate Hf.
Qed.

End HandlerClaims.

(** ** The handlers on scripted worlds *)

Lemma describeRPackage_checks_witness :
  let out :=
    describeRPackage scripted missingPackageQuery
      (startEnv [rscriptPath; printed "FALSE"]) in
  out.1 =
  inr (mkDocResult None None None
         (Some ("Package nonexistentpackage123 is not installed. Try installing it with 'install.packages("
                +:+ dquote +:+ "nonexistentpackage123" +:+ dquote
                +:+ ")' in R."))
         None (Some true)) /\
  issued out.2 = [whichCommand; requireCommand "nonexistentpackage123"].
Proof.
  destruct (describeRPackage_checks scripted missingPackageQuery
              (startEnv [rscriptPath; printed "FALSE"])) as (_ & H & _).
  apply H; reflexivity.
Defined.

Lemma getRPackageDoc_examples_witness :
  exists parsed,
    parseRDoc meanDoc "base" (Some "mean") = inr parsed /\
    (getRPackageDoc scripted meanQuery
       (startEnv [rscriptPath; printed "TRUE"; printed meanDoc;
                  inl commandFailed])).1 = inr parsed.
Proof.
  destruct (getRPackageDoc_examples scripted meanQuery
              (startEnv [rscriptPath; printed "TRUE"; printed meanDoc;
                         inl commandFailed])
              "mean" (mkExecOutput meanDoc "") [inl commandFailed]
              eq_refl ltac:(discriminate) eq_refl eq_refl eq_refl)
    as (parsed & Hparsed & H).
  exists parsed. split; [exact Hparsed | exact (proj1 H)].
Defined.

Lemma handlers_never_raise_witness :
  let env := startEnv [rscriptPath; printed "TRUE"; inl commandFailed] in
  let failed :=
    mkDocResult None None None
      (Some "Failed to fetch R documentation: Command failed: Rscript")
      None None in
  (describeRPackage scripted meanQuery env).1 = inr failed /\
  (getRPackageDoc scripted meanQuery env).1 = inr failed.
Proof.
  destruct (handlers_never_raise scripted meanQuery
              (startEnv [rscriptPath; printed "TRUE"; inl commandFailed]))
    as (_ & _ & H & _).
  apply (H eq_refl eq_refl commandFailed). reflexivity.
Defined.

(** ** Characters and header lines *)

Section HeaderFacts.

Implicit Types (c : ascii) (s x tail line : string).

Ltac char_arith :=
  unfold isLetter, isHeaderClass, isUpper, isLower, isUnderscore,
    isLineTerminator, isLineFeed in *;
  repeat match goal with
    | H : context [?a <=? ?b] |- _ => destruct (Nat.leb_spec a b)
    | H : context [?a =? ?b] |- _ => destruct (Nat.eqb_spec a b)
    | |- context [?a <=? ?b] => destruct (Nat.leb_spec a b)
    | |- context [?a =? ?b] => destruct (Nat.eqb_spec a b)
    end;
  simpl in *; try done; try lia.

Lemma upper_not_underscore c : isUpper c = true -> isUnderscore c = false.
Proof. intros H. char_arith. Qed.

Lemma letter_not_underscore c : isLetter c = true -> isUnderscore c = false.
Proof. intros H. char_arith. Qed.

Lemma letter_not_colon c : isLetter c = true -> (code c =? 58) = false.
Proof. intros H. char_arith. Qed.

Lemma lower_is_letter c : isLower c = true -> isLetter c = true.
Proof. intros H. char_arith. Qed.

Lemma terminator_not_letter c :
  isLineTerminator c = true -> isLetter c = false.
Proof. intros H. char_arith. Qed.

Lemma terminator_not_underscore c :
  isLineTerminator c = true -> isUnderscore c = false.
Proof. intros H. char_arith. Qed.

Lemma underscore_not_terminator c :
  isUnderscore c = true -> isLineTerminator c = false.
Proof. intros H. char_arith. Qed.

Lemma headerClass_cases c :
  isHeaderClass c = true -> isLetter c = true \/ isUnderscore c = true.
Proof.
  unfold isHeaderClass, isLetter. intros H.
  apply orb_true_iff in H as [H | H]; [left | right]; done.
Qed.

Lemma lowerChar_lower c : isLower (lowerChar c) = isLetter c.
Proof. destruct c as [[] [] [] [] [] [] [] []]; reflexivity. Qed.

Lemma code_colon c : code c = 58 -> c = ":"%char.
Proof.
  unfold code. intros H. by rewrite <- (ascii_nat_embedding c), H.
Qed.

Lemma allChars_app p x y :
  allChars p (x +:+ y) = allChars p x && allChars p y.
Proof.
  induction x as [|c x IH]; [done|].
  rewrite append_cons. simpl. by rewrite IH, andb_assoc.
Qed.

Lemma allChars_impl (p q : ascii -> bool) s :
  (forall c, p c = true -> q c = true) ->
  allChars p s = true -> allChars q s = true.
Proof.
  intros Hpq. induction s as [|c s IH]; simpl; [done|].
  intros [Hc Hs]%andb_true_iff. by rewrite (Hpq c Hc), IH.
Qed.

Lemma toLowerCase_lower s :
  allChars isLower (toLowerCase s) = allChars isLetter s.
Proof.
  induction s as [|c s IH]; simpl; [done|]. by rewrite lowerChar_lower, IH.
Qed.

(** What [span] returns: a split of its input at the first character that
    fails the test. *)
Lemma span_eq p s x r :
  span p s = (x, r) ->
  s = x +:+ r /\ allChars p x = true /\
  match r with EmptyString => True | String c _ => p c = false end.
Proof.
  revert x r; induction s as [|c s IH]; intros x r; simpl.
  - intros [= <- <-]. done.
  - destruct (p c) eqn:Hc.
    + destruct (span p s) as [x' r'] eqn:E. intros [= <- <-].
      destruct (IH x' r' eq_refl) as (-> & Hx & Hr).
      rewrite append_cons. simpl. by rewrite Hc, Hx.
    + intros [= <- <-]. simpl. done.
Qed.

Lemma span_intro p x r :
  allChars p x = true ->
  match r with EmptyString => True | String c _ => p c = false end ->
  span p (x +:+ r) = (x, r).
Proof.
  intros Hx Hr. induction x as [|c x IH].
  - destruct r as [|c r]; simpl; [done | by rewrite Hr].
  - simpl in Hx. apply andb_true_iff in Hx as [Hc Hx].
    rewrite append_cons. simpl. by rewrite Hc, (IH Hx).
Qed.

Lemma removeUnderscores_app x y :
  removeUnderscores (x +:+ y) = removeUnderscores x +:+ removeUnderscores y.
Proof.
  induction x as [|c x IH]; [done|]. rewrite append_cons. simpl.
  destruct (isUnderscore c); [done|]. by rewrite append_cons, IH.
Qed.

Lemma removeUnderscores_letters x :
  allChars isLetter x = true -> removeUnderscores x = x.
Proof.
  induction x as [|c x IH]; simpl; [done|].
  intros [Hc Hx]%andb_true_iff.
  by rewrite (letter_not_underscore c Hc), (IH Hx).
Qed.

Lemma removeUnderscores_headerClass x :
  allChars isHeaderClass x = true ->
  allChars isLetter (removeUnderscores x) = true.
Proof.
  induction x as [|c x IH]; simpl; [done|].
  intros [Hc Hx]%andb_true_iff.
  destruct (headerClass_cases c Hc) as [Hl | Hu].
  - rewrite (letter_not_underscore c Hl). simpl. by rewrite Hl, IH.
  - rewrite Hu. by apply IH.
Qed.

(** What [.*] leaves: nothing when there is no line terminator, and a text
    that starts with one otherwise. *)
Lemma afterDotStar_cases tail :
  (noLineTerminator tail /\ afterDotStar tail = "") \/
  (allChars (fun c => negb (isLineTerminator c)) tail = false /\
   exists l rest,
     afterDotStar tail = String l rest /\ isLineTerminator l = true).
Proof.
  unfold noLineTerminator, afterDotStar.
  induction tail as [|c tail IH]; simpl; [by left|].
  destruct (isLineTerminator c) eqn:Hc; simpl.
  - right. split; [done|]. by exists c, tail.
  - destruct (span _ tail) as [x r] eqn:E.
    destruct IH as [[H1 H2] | [H1 H2]]; [left | right]; done.
Qed.

Lemma removeUnderscores_terminators tail :
  allChars (fun c => negb (isLineTerminator c)) (removeUnderscores tail) =
  allChars (fun c => negb (isLineTerminator c)) tail.
Proof.
  induction tail as [|c tail IH]; simpl; [done|].
  destruct (isUnderscore c) eqn:Hc; simpl; rewrite IH; [|done].
  by rewrite (underscore_not_terminator c Hc).
Qed.

(** The shape of the lines each pattern matches. *)
Lemma matchEmphasis_Some line x tail :
  matchEmphasis line = Some (x, tail) <->
  exists u, line = String u (x +:+ ":" +:+ tail) /\ isUnderscore u = true /\
            x <> "" /\ allChars isHeaderClass x = true.
Proof.
  unfold matchEmphasis. split.
  - destruct line as [|u rest]; [done|].
    destruct (isUnderscore u) eqn:Hu; [|done].
    destruct (span isHeaderClass rest) as [a b] eqn:E.
    destruct (span_eq _ _ _ _ E) as (-> & Ha & Hb).
    destruct a as [|a0 a]; [done|]. destruct b as [|colon b]; [done|].
    destruct (Nat.eqb_spec (code colon) 58) as [Hcolon|]; [|done].
    intros [= <- <-]. exists u. split; [|done].
    by rewrite (code_colon colon Hcolon).
  - intros (u & -> & Hu & Hx & Hall). rewrite Hu.
    rewrite (span_intro isHeaderClass x (":" +:+ tail)) by done.
    destruct x; done.
Qed.

Lemma matchCapitalized_Some line w tail :
  matchCapitalized line = Some (w, tail) <->
  exists c ls, w = String c ls /\ line = w +:+ ":" +:+ tail /\
               isUpper c = true /\ ls <> "" /\ allChars isLower ls = true.
Proof.
  unfold matchCapitalized. split.
  - destruct line as [|c rest]; [done|].
    destruct (isUpper c) eqn:Hc; [|done].
    destruct (span isLower rest) as [a b] eqn:E.
    destruct (span_eq _ _ _ _ E) as (-> & Ha & Hb).
    destruct a as [|a0 a]; [done|]. destruct b as [|colon b]; [done|].
    destruct (Nat.eqb_spec (code colon) 58) as [Hcolon|]; [|done].
    intros [= <- <-]. exists c, (String a0 a). split; [done|]. split; [|done].
    by rewrite (code_colon colon Hcolon).
  - intros (c & ls & -> & -> & Hc & Hls & Hall). rewrite append_cons, Hc.
    rewrite (span_intro isLower ls (":" +:+ tail)) by done.
    destruct ls; done.
Qed.

Lemma span_app_stop p s rest :
  match rest with EmptyString => True | String c _ => p c = false end ->
  span p (s +:+ rest) = ((span p s).1, (span p s).2 +:+ rest).
Proof.
  intros Hrest. induction s as [|c s IH].
  - destruct rest as [|r rest]; simpl; [done | by rewrite Hrest].
  - rewrite append_cons. simpl. destruct (p c); [|done].
    rewrite IH. by destruct (span p s).
Qed.

(** A run of letters that ends the text, or is followed by a character
    that is neither a letter nor a colon, does not match the second
    pattern. *)
Lemma matchCapitalized_letters_then s rest :
  allChars isLetter s = true ->
  match rest with
  | EmptyString => True
  | String c _ => isLetter c = false /\ (code c =? 58) = false
  end ->
  matchCapitalized (s +:+ rest) = None.
Proof.
  intros Hs Hrest. unfold matchCapitalized.
  destruct s as [|c s].
  - destruct rest as [|r rest]; [done|]. simpl. destruct Hrest as [Hr _].
    unfold isLetter in Hr. apply orb_false_elim in Hr as [-> _]. done.
  - rewrite append_cons. destruct (isUpper c); [|done].
    simpl in Hs. apply andb_true_iff in Hs as [_ Hs].
    rewrite span_app_stop.
    2:{ destruct rest as [|r rest]; [done|]. destruct Hrest as [Hr _].
        unfold isLetter in Hr. by apply orb_false_elim in Hr as [_ ->]. }
    destruct (span isLower s) as [a b] eqn:E. simpl.
    destruct (span_eq _ _ _ _ E) as (-> & Ha & Hb).
    rewrite allChars_app in Hs. apply andb_true_iff in Hs as [_ Hbl].
    destruct a as [|a0 a]; [done|].
    destruct b as [|b0 b].
    + destruct rest as [|r rest]; [done|]. simpl.
      destruct Hrest as [_ ->]. done.
    + rewrite append_cons. simpl in Hbl.
      apply andb_true_iff in Hbl as [Hb0 _].
      by rewrite (letter_not_colon b0 Hb0).
Qed.

Lemma append_empty_r s : s +:+ "" = s.
Proof. induction s as [|c s IH]; [done|]. by rewrite append_cons, IH. Qed.

Lemma headerClass_not_terminator c :
  isHeaderClass c = true -> isLineTerminator c = false.
Proof. intros H. char_arith. Qed.

Lemma terminator_not_colon c :
  isLineTerminator c = true -> (code c =? 58) = false.
Proof. intros H. char_arith. Qed.

(** The name extracted from a line of the first pattern. *)
Lemma sectionName_emphasis u x tail :
  isUnderscore u = true -> x <> "" -> allChars isHeaderClass x = true ->
  sectionName (String u (x +:+ ":" +:+ tail)) =
  removeUnderscores x +:+ removeUnderscores (afterDotStar tail).
Proof.
  intros Hu Hx Hall. unfold sectionName, replaceEmphasis.
  assert (matchEmphasis (String u (x +:+ ":" +:+ tail)) = Some (x, tail))
    as -> by (apply matchEmphasis_Some; eauto).
  rewrite removeUnderscores_app. unfold replaceCapitalized.
  rewrite matchCapitalized_letters_then; [done | |].
  - by apply removeUnderscores_headerClass.
  - destruct (afterDotStar_cases tail) as [[_ ->] | [_ (l & rest & -> & Hl)]];
      [done|].
    simpl. rewrite (terminator_not_underscore l Hl).
    by rewrite (terminator_not_letter l Hl), (terminator_not_colon l Hl).
Qed.

(** The name extracted from a line of the second pattern. *)
Lemma sectionName_capitalized c ls tail :
  isUpper c = true -> ls <> "" -> allChars isLower ls = true ->
  sectionName (String c ls +:+ ":" +:+ tail) =
  String c ls +:+ afterDotStar (removeUnderscores tail).
Proof.
  intros Hc Hls Hall. unfold sectionName, replaceEmphasis.
  assert (matchEmphasis (String c ls +:+ ":" +:+ tail) = None) as ->.
  { rewrite append_cons. unfold matchEmphasis.
    by rewrite (upper_not_underscore c Hc). }
  assert (allChars isLetter (String c ls) = true) as Hw.
  { simpl. unfold isLetter at 1. rewrite Hc. simpl.
    apply (allChars_impl isLower); [apply lower_is_letter | done]. }
  rewrite removeUnderscores_app, (removeUnderscores_letters _ Hw).
  change (removeUnderscores (":" +:+ tail))
    with (":" +:+ removeUnderscores tail).
  unfold replaceCapitalized.
  assert (matchCapitalized (String c ls +:+ ":" +:+ removeUnderscores tail)
          = Some (String c ls, removeUnderscores tail)) as ->; [|done].
  apply matchCapitalized_Some. by exists c, ls.
Qed.

(** The fold rule ignores a section whose name has a character that is not
    a letter. *)
Lemma addSection_not_letters r name content :
  allChars isLetter name = false -> addSectionToResult r name content = r.
Proof.
  intros H. rewrite <- toLowerCase_lower in H.
  unfold addSectionToResult. cbv zeta.
  repeat match goal with
    | |- context [String.eqb (toLowerCase name) ?lit] =>
        destruct (String.eqb_spec (toLowerCase name) lit) as [E|_];
        [rewrite E in H; discriminate H|]
    end.
  done.
Qed.

Lemma isHeader_true line :
  isHeader line = true <->
  is_Some (matchEmphasis line) \/ is_Some (matchCapitalized line).
Proof.
  unfold isHeader. by rewrite orb_true_iff, !bool_decide_eq_true.
Qed.

(** X1.  A line is a header exactly when it is an underscore, a non-empty
    run of letters and underscores, and a colon, or a capital letter, a
    non-empty run of small letters, and a colon; anything may follow the
    colon. *)
Theorem isHeader_shape line :
  isHeader line = true <->
  (exists u x tail,
     line = String u (x +:+ ":" +:+ tail) /\ isUnderscore u = true /\
     x <> "" /\ allChars isHeaderClass x = true) \/
  (exists c ls tail,
     line = String c (ls +:+ ":" +:+ tail) /\ isUpper c = true /\
     ls <> "" /\ allChars isLower ls = true).
Proof.
  rewrite isHeader_true. split.
  - intros [[[x tail] H] | [[w tail] H]].
    + apply matchEmphasis_Some in H as (u & -> & ? & ? & ?).
      left. by exists u, x, tail.
    + apply matchCapitalized_Some in H as (c & ls & -> & -> & ? & ? & ?).
      right. by exists c, ls, tail.
  - intros [(u & x & tail & -> & ? & ? & ?) | (c & ls & tail & -> & ? & ? & ?)].
    + left. exists (x, tail). apply matchEmphasis_Some. by exists u.
    + right. exists (String c ls, tail). apply matchCapitalized_Some.
      by exists c, ls.
Qed.

(** X2.  For a header line made of a capitalized word, a colon and a rest
    without line terminator, the section name is the word; the rest of the
    line is ignored. *)
Theorem sectionName_plain_header c ls tail :
  isUpper c = true -> ls <> "" -> allChars isLower ls = true ->
  noLineTerminator tail ->
  isHeader (String c ls +:+ ":" +:+ tail) = true /\
  sectionName (String c ls +:+ ":" +:+ tail) = String c ls.
Proof.
  intros Hc Hls Hall Htail. split.
  - apply isHeader_true. right. exists (String c ls, tail).
    apply matchCapitalized_Some. by exists c, ls.
  - rewrite sectionName_capitalized by done.
    destruct (afterDotStar_cases (removeUnderscores tail))
      as [[_ ->] | [H _]]; [apply append_empty_r|].
    rewrite removeUnderscores_terminators in H.
    unfold noLineTerminator in Htail. congruence.
Qed.

Lemma sectionName_plain_header_witness :
  isHeader "Usage: of my_function" = true /\
  sectionName "Usage: of my_function" = "Usage".
Proof.
  apply (sectionName_plain_header "U" "sage" " of my_function");
    [reflexivity | discriminate | reflexivity | reflexivity].
Defined.

(** X3.  For a header line made of an underscore, a non-empty run of
    letters and underscores, a colon and a rest without line terminator,
    the section name is the run without its underscores. *)
Theorem sectionName_emphasis_header x tail :
  x <> "" -> allChars isHeaderClass x = true -> noLineTerminator tail ->
  isHeader ("_" +:+ x +:+ ":" +:+ tail) = true /\
  sectionName ("_" +:+ x +:+ ":" +:+ tail) = removeUnderscores x.
Proof.
  intros Hx Hall Htail.
  change ("_" +:+ x +:+ ":" +:+ tail) with (String "_" (x +:+ ":" +:+ tail)).
  split.
  - apply isHeader_true. left. exists (x, tail).
    apply matchEmphasis_Some. by exists "_"%char.
  - rewrite sectionName_emphasis by done.
    destruct (afterDotStar_cases tail) as [[_ ->] | [H _]];
      [apply append_empty_r|].
    unfold noLineTerminator in Htail. congruence.
Qed.

Lemma sectionName_emphasis_header_witness :
  isHeader "_U_s_a_g_e:" = true /\ sectionName "_U_s_a_g_e:" = "Usage".
Proof.
  apply (sectionName_emphasis_header "U_s_a_g_e" "");
    [discriminate | reflexivity | reflexivity].
Defined.

(** X4.  A header line that contains a line terminator (a carriage return
    left by a text with CRLF line ends) names a section that the fold rule
    ignores, whatever its content. *)
Theorem header_with_terminator_dropped h r content :
  isHeader h = true ->
  allChars (fun c => negb (isLineTerminator c)) h = false ->
  addSectionToResult r (sectionName h) content = r.
Proof.
  intros Hh Hterm. apply addSection_not_letters.
  apply isHeader_true in Hh as [[[x tail] H] | [[w tail] H]].
  - apply matchEmphasis_Some in H as (u & -> & Hu & Hx & Hall).
    rewrite sectionName_emphasis by done.
    simpl in Hterm. rewrite (underscore_not_terminator u Hu) in Hterm.
    rewrite !allChars_app in Hterm. simpl in Hterm.
    rewrite (allChars_impl isHeaderClass _ x) in Hterm; [|  | done].
    2:{ intros c Hc. by rewrite (headerClass_not_terminator c Hc). }
    simpl in Hterm.
    destruct (afterDotStar_cases tail) as [[H _] | [_ (l & rest & -> & Hl)]].
    { unfold noLineTerminator in H. congruence. }
    rewrite allChars_app. simpl. rewrite (terminator_not_underscore l Hl).
    simpl. rewrite (terminator_not_letter l Hl). apply andb_false_r.
  - apply matchCapitalized_Some in H as (c & ls & -> & -> & Hc & Hls & Hall).
    rewrite sectionName_capitalized by done.
    rewrite !allChars_app in Hterm.
    rewrite (allChars_impl isHeaderClass _ (String c ls)) in Hterm.
    2:{ intros a Ha. by rewrite (headerClass_not_terminator a Ha). }
    2:{ simpl. unfold isHeaderClass at 1. rewrite Hc. simpl.
        apply (allChars_impl isLower); [|done].
        intros a Ha. unfold isHeaderClass. by rewrite Ha, orb_true_r. }
    simpl in Hterm. rewrite <- removeUnderscores_terminators in Hterm.
    destruct (afterDotStar_cases (removeUnderscores tail))
      as [[H _] | [_ (l & rest & -> & Hl)]].
    { unfold noLineTerminator in H. congruence. }
    rewrite allChars_app. simpl.
    rewrite (terminator_not_letter l Hl). apply andb_false_r.
Qed.

Lemma header_with_terminator_dropped_witness :
  sectionName ("_U_s_a_g_e:" +:+ cr) = "Usage" +:+ cr /\
  addSectionToResult emptyResult (sectionName ("_U_s_a_g_e:" +:+ cr))
    "mean(x, ...)" = emptyResult.
Proof.
  split; [reflexivity|].
  apply (header_with_terminator_dropped ("_U_s_a_g_e:" +:+ cr));
    reflexivity.
Defined.

End HeaderFacts.

(** ** Lines *)

Section LineFacts.

Implicit Types (s l : string) (lines : list string).

Lemma code_line_feed c : code c = 10 -> c = "010"%char.
Proof.
  unfold code. intros H. by rewrite <- (ascii_nat_embedding c), H.
Qed.

Lemma split_nl_cons s : exists l ls, split_nl s = l :: ls.
Proof.
  induction s as [|c s (l & ls & IH)]; simpl; [by eexists _, _|].
  destruct (code c =? 10); [by eexists _, _|]. rewrite IH. by eexists _, _.
Qed.

Lemma join_nl_cons_char c l ls :
  join_nl (String c l :: ls) = String c (join_nl (l :: ls)).
Proof. destruct ls; [done|]. simpl. by rewrite append_cons. Qed.

Lemma join_split s : join_nl (split_nl s) = s.
Proof.
  induction s as [|c s IH]; [done|]. simpl.
  destruct (split_nl_cons s) as (l & ls & E). rewrite E in *.
  destruct (Nat.eqb_spec (code c) 10) as [Hc|_].
  - rewrite (code_line_feed c Hc).
    change (join_nl ("" :: l :: ls)) with (nl +:+ join_nl (l :: ls)).
    by rewrite IH.
  - by rewrite join_nl_cons_char, IH.
Qed.

Lemma split_no_line_feed s :
  Forall (fun l => allChars (fun c => negb (isLineFeed c)) l = true)
    (split_nl s).
Proof.
  induction s as [|c s IH]; simpl; [by repeat constructor|].
  destruct (code c =? 10) eqn:Hc; [by constructor|].
  destruct (split_nl_cons s) as (l & ls & E). rewrite E in *.
  inversion IH as [|? ? Hl Hls]; subst. constructor; [|done].
  simpl. unfold isLineFeed at 1. by rewrite Hc, Hl.
Qed.

Lemma split_line l :
  allChars (fun c => negb (isLineFeed c)) l = true -> split_nl l = [l].
Proof.
  induction l as [|c l IH]; simpl; [done|].
  intros [Hc Hl]%andb_true_iff. unfold isLineFeed in Hc.
  apply negb_true_iff in Hc. by rewrite Hc, (IH Hl).
Qed.

Lemma split_line_then l s :
  allChars (fun c => negb (isLineFeed c)) l = true ->
  split_nl (l +:+ nl +:+ s) = l :: split_nl s.
Proof.
  induction l as [|c l IH]; [done|]. rewrite append_cons. simpl.
  intros [Hc Hl]%andb_true_iff. unfold isLineFeed in Hc.
  apply negb_true_iff in Hc. by rewrite Hc, (IH Hl).
Qed.

(** X5.  Splitting a text into lines loses nothing: there is always at
    least one line, no line contains a line feed, and joining the lines
    gives the text back. *)
Theorem join_split_round_trip s :
  join_nl (split_nl s) = s /\
  0 < length (split_nl s) /\
  Forall (fun l => allChars (fun c => negb (isLineFeed c)) l = true)
    (split_nl s).
Proof.
  split; [apply join_split|]. split; [|apply split_no_line_feed].
  destruct (split_nl_cons s) as (l & ls & ->). simpl. lia.
Qed.

(** X6.  A non-empty list of lines without line feed is the list of lines
    of the text that joins them. *)
Theorem split_join_round_trip lines :
  lines <> [] ->
  Forall (fun l => allChars (fun c => negb (isLineFeed c)) l = true) lines ->
  split_nl (join_nl lines) = lines.
Proof.
  intros Hne Hall. induction Hall as [|l ls Hl Hls IH]; [done|].
  destruct ls as [|l' ls]; [by apply split_line|].
  change (join_nl (l :: l' :: ls)) with (l +:+ nl +:+ join_nl (l' :: ls)).
  rewrite split_line_then by done. by rewrite IH.
Qed.

Lemma split_join_round_trip_witness :
  split_nl (join_nl ["Usage:"; ""; "  mean(x, ...)"; ""]) =
  ["Usage:"; ""; "  mean(x, ...)"; ""].
Proof.
  apply (split_join_round_trip ["Usage:"; ""; "  mean(x, ...)"; ""]);
    [discriminate | repeat constructor].
Defined.

End LineFacts.

(** ** The parser: further properties *)

Section ParserFacts.

Implicit Types (doc packageName : string) (sym : option string).
Implicit Types (r : DocResult).

Lemma usageFallback_example doc sym r :
  example (usageFallback doc sym r) = example r.
Proof. unfold usageFallback. by case_match. Qed.

Lemma usageFallback_searchResults doc sym r :
  searchResults (usageFallback doc sym r) = searchResults r.
Proof. unfold usageFallback. by case_match. Qed.

Lemma usageFallback_suggestInstall doc sym r :
  suggestInstall (usageFallback doc sym r) = suggestInstall r.
Proof. unfold usageFallback. by case_match. Qed.

(** What every result of the parser looks like. *)
Lemma parseRDoc_fields doc packageName sym r :
  parseRDoc doc packageName sym = inr r ->
  searchResults r = None /\ suggestInstall r = None /\
  (error r = None \/
   description r = None /\ usage r = None /\ example r = None).
Proof.
  unfold parseRDoc. destruct (notFound doc) eqn:Hnf.
  - intros [= <-]. simpl. split; [done|]. split; [done|]. by right.
  - rewrite parseLines_returns. intros [= <-].
    rewrite usageFallback_searchResults, usageFallback_suggestInstall,
      usageFallback_error, foldSections_searchResults,
      foldSections_suggestInstall, foldSections_error.
    unfold preamble.
    destruct (split_nl doc !! 2); simpl; (split; [done|]); (split; [done|]);
      by left.
Qed.

(** X7.  Whatever the text, the result of [parseRDoc] carries neither
    [searchResults] nor [suggestInstall]. *)
Theorem parseRDoc_lookup_fields_only doc packageName sym :
  exists r,
    parseRDoc doc packageName sym = inr r /\
    searchResults r = None /\ suggestInstall r = None.
Proof.
  destruct (parseRDoc_returns doc packageName sym) as [r Hr].
  exists r. split; [done|].
  destruct (parseRDoc_fields _ _ _ _ Hr) as (? & ? & _). done.
Qed.

(** X8.  For an accepted text and a query without symbol (absent or
    empty), [usage] is always present and not empty. *)
Theorem parseRDoc_overview_has_usage doc packageName sym :
  accepted doc -> truthy sym = false ->
  exists r u,
    parseRDoc doc packageName sym = inr r /\ usage r = Some u /\ u <> "".
Proof.
  intros Hacc Hsym. rewrite parseRDoc_accepted by done.
  set (r0 := foldSections _ _). unfold usageFallback. rewrite Hsym.
  destruct (usage r0) as [[|c u]|] eqn:Hu; simpl.
  - exists (set_usage r0 doc), doc. split; [done|]. split; [done|].
    intros ->. discriminate Hacc.
  - exists r0, (String c u). by rewrite Hu.
  - exists (set_usage r0 doc), doc. split; [done|]. split; [done|].
    intros ->. discriminate Hacc.
Qed.

Lemma parseRDoc_overview_has_usage_witness :
  exists r u,
    parseRDoc plainDoc "stats" None = inr r /\ usage r = Some u /\ u <> "".
Proof.
  apply (parseRDoc_overview_has_usage plainDoc "stats" None); reflexivity.
Defined.

Lemma addSection_usage_name r name content :
  isUsageName name = true ->
  usage (addSectionToResult r name content) = Some content.
Proof.
  unfold isUsageName. intros H%String.eqb_eq.
  unfold addSectionToResult. rewrite H. done.
Qed.

(** A section other than Usage keeps a non-empty [usage] as a prefix. *)
Lemma addSection_usage_prefix r name content u :
  isUsageName name = false -> usage r = Some u -> u <> "" ->
  exists suffix,
    usage (addSectionToResult r name content) = Some (u +:+ suffix).
Proof.
  unfold isUsageName. intros Hname Hu Hne.
  unfold addSectionToResult, appendToUsage. cbv zeta.
  rewrite Hname, Hu. destruct u as [|c u]; [done|]. simpl isEmpty.
  repeat case_match; simpl;
    try (exists ""; by rewrite append_empty_r, ?Hu);
    eexists; reflexivity.
Qed.

Lemma foldSections_usage_prefix r secs u :
  Forall (fun s => isUsageName s.1 = false) secs ->
  usage r = Some u -> u <> "" ->
  exists suffix, usage (foldSections r secs) = Some (u +:+ suffix).
Proof.
  intros Hsecs. revert r u.
  induction Hsecs as [|[name content] secs Hname _ IH]; intros r u Hu Hne.
  - exists "". by rewrite append_empty_r.
  - destruct (addSection_usage_prefix r name content u Hname Hu Hne)
      as [suffix1 H1].
    destruct (IH _ _ H1) as [suffix2 H2].
    { by destruct u. }
    exists (suffix1 +:+ suffix2). unfold foldSections in *. simpl.
    by rewrite H2, append_assoc.
Qed.

(** X9.  The last Usage section of an accepted text discards what was
    folded into [usage] before it: when its content U is not empty, [usage]
    starts with U, and what follows U comes from the later sections only
    (nothing follows when there is none). *)
Theorem parseRDoc_last_usage_wins
    doc packageName sym before name U after :
  accepted doc ->
  usageSections doc = before ++ (name, U) :: after ->
  isUsageName name = true ->
  U <> "" ->
  Forall (fun s => isUsageName s.1 = false) after ->
  exists r suffix,
    parseRDoc doc packageName sym = inr r /\
    usage r = Some (U +:+ suffix) /\
    usage (foldSections (set_usage emptyResult U) after)
    = Some (U +:+ suffix).
Proof.
  intros Hacc Hsecs Hname HU Hafter.
  rewrite parseRDoc_accepted by done.
  set (r0 := preamble (split_nl doc)).
  set (r2 := set_usage emptyResult U).
  destruct (foldSections_usage_prefix r2 after U) as [suffix Hsuffix];
    [done..|].
  exists (usageFallback doc sym (foldSections r0 (foldedSections doc))).
  exists suffix. split; [done|].
  assert (usage (foldSections r0 (foldedSections doc)) = Some (U +:+ suffix))
    as Hu.
  { rewrite (foldSections_usage_filter r0 r0) by done.
    unfold usageSections in Hsecs. rewrite Hsecs.
    change ((name, U) :: after) with ([(name, U)] ++ after).
    rewrite !foldSections_app. rewrite <- Hsuffix.
    rewrite (foldSections_usage_filter _ r2 after),
      (foldSections_usage_filter r2 r2 after); [done..|].
    unfold foldSections at 1. simpl. by rewrite addSection_usage_name. }
  split; [|done]. unfold usageFallback. rewrite Hu.
  destruct U; [done|]. done.
Qed.

Lemma parseRDoc_last_usage_wins_witness :
  exists r suffix,
    parseRDoc twoUsageDoc "base" (Some "f") = inr r /\
    usage r = Some ("f(x, y)" +:+ suffix) /\
    usage (foldSections (set_usage emptyResult "f(x, y)")
             [("Details", "None.")])
    = Some ("f(x, y)" +:+ suffix).
Proof.
  apply (parseRDoc_last_usage_wins twoUsageDoc "base" (Some "f")
           [("Usage", "f(x)"); ("Arguments", "x: a vector")]
           "Usage" "f(x, y)" [("Details", "None.")]);
    [reflexivity | reflexivity | reflexivity | discriminate
    | repeat constructor].
Defined.

Lemma addSection_example r name content :
  example (addSectionToResult r name content) =
  if isExamplesName name then Some content else example r.
Proof.
  unfold addSectionToResult, appendToUsage, isExamplesName. cbv zeta.
  destruct (String.eqb_spec (toLowerCase name) "examples") as [->|_];
    [done|].
  by repeat case_match.
Qed.

Lemma foldSections_example r secs :
  example (foldSections r secs) =
  match lastExamples secs with
  | Some c => Some c
  | None => example r
  end.
Proof.
  unfold lastExamples.
  induction secs as [|[name content] secs IH] using rev_ind; [done|].
  rewrite foldSections_app, filter_app, filter_cons, filter_nil.
  unfold foldSections at 1. simpl. rewrite addSection_example.
  destruct (isExamplesName name) eqn:E.
  - rewrite decide_True by done. by rewrite last_snoc.
  - rewrite decide_False by (by intros ?). by rewrite app_nil_r.
Qed.

(** X10.  For an accepted text, [example] is the content of the last
    Examples section folded, and is absent when no Examples section is
    folded. *)
Theorem parseRDoc_example_last_section doc packageName sym :
  accepted doc ->
  exists r,
    parseRDoc doc packageName sym = inr r /\
    example r = lastExamples (foldedSections doc).
Proof.
  intros Hacc. rewrite parseRDoc_accepted by done. eexists. split; [done|].
  rewrite usageFallback_example, foldSections_example.
  destruct (lastExamples _); [done|].
  unfold preamble. by destruct (split_nl doc !! 2).
Qed.

Lemma parseRDoc_example_last_section_witness :
  exists r,
    parseRDoc twoUsageDoc "base" (Some "f") = inr r /\
    example r = lastExamples (foldedSections twoUsageDoc).
Proof.
  apply (parseRDoc_example_last_section twoUsageDoc "base" (Some "f")).
  reflexivity.
Defined.

Lemma sectionsFrom_headerFree cur content rest :
  headerFree rest ->
  sectionsFrom cur content rest = emitted cur (content ++ rest).
Proof.
  intros H. revert content.
  induction H as [|l rest Hl _ IH]; intros content; simpl.
  - by rewrite app_nil_r.
  - rewrite Hl, IH. by rewrite <- app_assoc.
Qed.

Lemma sectionsFrom_first_header content junk h rest :
  headerFree junk -> isHeader h = true ->
  sectionsFrom "" content (junk ++ h :: rest) =
  sectionsFrom (sectionName h) [] rest.
Proof.
  intros Hjunk Hh. revert content.
  induction Hjunk as [|l junk Hl _ IH]; intros content; simpl.
  - by rewrite Hh.
  - by rewrite Hl, IH.
Qed.

(** X11.  For an accepted text without header line from its fourth line
    on, the result is the trimmed third line as [description] (when there
    is a third line), the whole text as [usage] when the symbol is absent
    or empty, and nothing else. *)
Theorem parseRDoc_headerless doc packageName sym :
  accepted doc ->
  headerFree (drop 3 (split_nl doc)) ->
  parseRDoc doc packageName sym =
  inr (mkDocResult (trim <$> split_nl doc !! 2)
         (if truthy sym then None else Some doc) None None None None).
Proof.
  intros Hacc Hfree. rewrite parseRDoc_accepted by done.
  unfold foldedSections. rewrite sectionsFrom_headerFree by done.
  unfold preamble, usageFallback.
  destruct (split_nl doc !! 2); simpl; by destruct (truthy sym).
Qed.

Lemma parseRDoc_headerless_witness :
  parseRDoc plainDoc "stats" None =
  inr (mkDocResult (Some "The R Stats Package") (Some plainDoc)
         None None None None).
Proof.
  apply (parseRDoc_headerless plainDoc "stats" None);
    [reflexivity | repeat constructor].
Defined.

(** X12.  The lines between the third line and the first header line do
    not reach the result: the sections folded, and the result of the scan,
    are those of the text without these lines. *)
Theorem parseRDoc_text_before_first_header
    doc packageName sym l0 l1 l2 junk h rest :
  accepted doc ->
  split_nl doc = l0 :: l1 :: l2 :: junk ++ h :: rest ->
  headerFree junk ->
  isHeader h = true ->
  foldedSections doc = sectionsFrom (sectionName h) [] rest /\
  exists r,
    parseLines (l0 :: l1 :: l2 :: h :: rest) = inr r /\
    parseRDoc doc packageName sym = inr (usageFallback doc sym r).
Proof.
  intros Hacc Hlines Hjunk Hh.
  assert (foldedSections doc = sectionsFrom (sectionName h) [] rest) as Hs.
  { unfold foldedSections. rewrite Hlines. simpl.
    by apply sectionsFrom_first_header. }
  split; [done|]. eexists. split; [apply parseLines_returns|].
  rewrite parseRDoc_accepted, Hs by done. simpl. rewrite Hh. simpl.
  unfold preamble. by rewrite Hlines.
Qed.

Lemma parseRDoc_text_before_first_header_witness :
  foldedSections twoUsageDoc =
  sectionsFrom "Usage" []
    ["f(x)"; "Arguments:"; "x: a vector"; "Usage:"; "f(x, y)"; "Examples:";
     "f(1)"; "Details:"; "None."] /\
  exists r,
    parseLines
      ("f   package:base   R Documentation" :: "" :: "Title" :: "Usage:"
       :: ["f(x)"; "Arguments:"; "x: a vector"; "Usage:"; "f(x, y)";
           "Examples:"; "f(1)"; "Details:"; "None."]) = inr r /\
    parseRDoc twoUsageDoc "base" (Some "f") =
    inr (usageFallback twoUsageDoc (Some "f") r).
Proof.
  apply (parseRDoc_text_before_first_header twoUsageDoc "base" (Some "f")
           "f   package:base   R Documentation" "" "Title"
           ["text before any header"] "Usage:"
           ["f(x)"; "Arguments:"; "x: a vector"; "Usage:"; "f(x, y)";
            "Examples:"; "f(1)"; "Details:"; "None."]);
    [reflexivity | reflexivity | repeat constructor | reflexivity].
Defined.

End ParserFacts.

(** ** The validator: further properties *)

Section ValidatorFacts.

Implicit Types (args v : JsValue) (props : gmap string JsValue).

Lemma typeof_string_iff v :
  String.eqb (typeof v) "string" = true <-> exists s, v = JsString s.
Proof.
  split; [apply typeof_string|]. by intros [s ->].
Qed.

Lemma optional_test o :
  String.eqb (typeof (default JsUndefined o)) "string"
  || isUndefined (default JsUndefined o) = true <->
  optionalString o.
Proof.
  unfold optionalString. destruct o as [[]|]; simpl; split; try done;
    eauto; intros [? | [? | [s ?]]]; done.
Qed.

(** X13.  [isRDocArgs] accepts exactly the objects whose [package]
    property is a string and whose [symbol] and [projectPath] properties
    are each missing, [undefined] or a string. *)
Theorem isRDocArgs_exactly args :
  isRDocArgs args = true <->
  exists props name,
    args = JsObject props /\
    props !! "package" = Some (JsString name) /\
    optionalString (props !! "symbol") /\
    optionalString (props !! "projectPath").
Proof.
  split.
  - unfold isRDocArgs. rewrite !andb_true_iff.
    intros [[[[Hobj Hnull] Hpkg] Hsym] Hpath].
    destruct args as [| | | | |items|props]; try discriminate.
    exists props. simpl in *.
    apply optional_test in Hsym, Hpath.
    destruct (props !! "package") as [[]|]; try discriminate. eauto.
  - intros (props & name & -> & Hpkg & Hsym & Hpath).
    apply optional_test in Hsym, Hpath.
    unfold isRDocArgs, getProp. rewrite Hpkg, Hsym, Hpath. done.
Qed.

(** X14.  [isRDocArgs] rejects every value that is not an object:
    [undefined], [null], booleans, numbers, strings and arrays. *)
Theorem isRDocArgs_rejects_non_objects args :
  (forall props, args <> JsObject props) -> isRDocArgs args = false.
Proof.
  intros H. destruct args; try done. by destruct (H props).
Qed.

Lemma isRDocArgs_rejects_non_objects_witness :
  isRDocArgs (JsArray [JsString "base"; JsString "mean"]) = false.
Proof.
  apply (isRDocArgs_rejects_non_objects
           (JsArray [JsString "base"; JsString "mean"])).
  discriminate.
Defined.

(** X15.  A property other than [package], [symbol] and [projectPath]
    has no influence on the verdict of [isRDocArgs]. *)
Theorem isRDocArgs_ignores_other_keys props key v :
  key <> "package" -> key <> "symbol" -> key <> "projectPath" ->
  isRDocArgs (JsObject (<[key := v]> props)) = isRDocArgs (JsObject props).
Proof.
  intros H1 H2 H3. unfold isRDocArgs, getProp.
  by rewrite !lookup_insert_ne.
Qed.

Lemma isRDocArgs_ignores_other_keys_witness :
  isRDocArgs (JsObject (<["query" := JsNumber 3]>
                        (<["package" := JsString "base"]> ∅))) =
  isRDocArgs (JsObject (<["package" := JsString "base"]> ∅)).
Proof.
  apply (isRDocArgs_ignores_other_keys
           (<["package" := JsString "base"]> ∅) "query" (JsNumber 3));
    discriminate.
Defined.

End ValidatorFacts.

(** ** The handlers: further properties *)

Section HandlerMore.

Context {World : Type}.
Variable run : string -> World -> Completion ExecOutput * World.
Implicit Types (args : RDocArgs) (env : Env World).

Ltac unfold_handler :=
  cbv beta iota zeta delta
    [describeRPackage getRPackageDoc withExamples andThen tryCatch
     logger_info logger_error isRInstalled isRPackageInstalled execAsync
     resolve complete isToolAvailable isPackageAvailable afterToolCheck
     afterPackageCheck helpCommand world issued logged fst snd] in *;
  cbn [negb] in *.

Ltac next_command :=
  match goal with
  | |- context [run ?c ?w] =>
      is_var w; destruct (run c w) as [[?|?] ?] eqn:?; unfold_handler
  end.

(** X16.  The two availability checks never raise.  Each issues one
    command and resolves with a boolean: [isRInstalled] with true exactly
    when the command resolved, whatever it printed; [isRPackageInstalled]
    with true exactly when the command resolved and printed, up to
    surrounding white space, TRUE. *)
Theorem availability_checks_resolve packageName env :
  (exists b,
     (isRInstalled run env).1 = inr b /\
     (b = true <-> exists out, (run whichCommand (world env)).1 = inr out)) /\
  issued (isRInstalled run env).2 = issued env ++ [whichCommand] /\
  (exists b,
     (isRPackageInstalled run packageName env).1 = inr b /\
     (b = true <->
      exists out,
        (run (requireCommand packageName) (world env)).1 = inr out /\
        trim (stdout out) = "TRUE")) /\
  issued (isRPackageInstalled run packageName env).2 =
  issued env ++ [requireCommand packageName].
Proof.
  destruct env as [w0 iss lg]. unfold_handler.
  destruct (run whichCommand w0) as [[e1|o1] w1];
    destruct (run (requireCommand packageName) w0) as [[e2|o2] w2];
    unfold_handler.
  all: repeat split; try done.
  all: try (eexists; split; [reflexivity|]; split;
            [try done; eauto | try done; by intros [? ?]]).
  all: try (eexists; split; [reflexivity|]; split;
            [ intros H%String.eqb_eq; eauto
            | intros (out & [= <-] & H); by apply String.eqb_eq ]).
  all: try (eexists; split; [reflexivity|]; split;
            [ done | by intros (out & [=] & _) ]).
Qed.

(** X17.  The handlers issue their commands in a fixed order and stop at
    the first step that ends the call: the commands issued by one call are
    a non-empty initial part of the tool check, the package check and the
    help fetch, followed for [getRPackageDoc] by the examples fetch (symbol
    query) or by the description and function-list fetches (package
    query). *)
Theorem handlers_issue_in_order args env :
  let name := package args in
  let sym := default "" (symbol args) in
  (exists n,
     issued (describeRPackage run args env).2 =
     issued env
     ++ take (S n) [whichCommand; requireCommand name;
                    helpCommand name (symbol args)]) /\
  (exists n,
     issued (getRPackageDoc run args env).2 =
     issued env
     ++ take (S n)
          (if truthy (symbol args)
           then [whichCommand; requireCommand name;
                 helpSymbolCommand sym name; examplesCommand sym name]
           else [whichCommand; requireCommand name;
                 helpPackageCommand name; descCommand name;
                 functionsCommand name])).
Proof.
  cbv zeta. destruct env as [w0 iss lg].
  split.
  - unfold_handler. next_command; [by exists 0|].
    next_command; [by exists 1; rewrite <- app_assoc|].
    destruct (String.eqb _ _); unfold_handler;
      [|by exists 1; rewrite <- app_assoc].
    next_command; [by exists 2; rewrite <- !app_assoc|].
    destruct (parseRDoc _ _ _); by exists 2; rewrite <- !app_assoc.
  - unfold_handler. next_command; [by exists 0; destruct (truthy _)|].
    next_command; [by exists 1; rewrite <- app_assoc; destruct (truthy _)|].
    destruct (String.eqb _ _); unfold_handler;
      [|by exists 1; rewrite <- app_assoc; destruct (truthy _)].
    destruct (truthy (symbol args)); unfold_handler.
    + next_command; [by exists 2; rewrite <- !app_assoc|].
      destruct (parseRDoc _ _ _); unfold_handler;
        [by exists 2; rewrite <- !app_assoc|].
      next_command; [by exists 3; rewrite <- !app_assoc|].
      destruct (negb _ && _); by exists 3; rewrite <- !app_assoc.
    + next_command; [by exists 2; rewrite <- !app_assoc|].
      next_command; [by exists 3; rewrite <- !app_assoc|].
      next_command; by exists 4; rewrite <- !app_assoc.
Qed.

(** X18.  For a package query whose three fetches resolve,
    [getRPackageDoc] does not parse the overview: the result is the
    description output as [description] and the overview and function list
    under their headings as [usage], without [error], even when the
    overview is a text [parseRDoc] rejects, for which [describeRPackage]
    returns the not-found error in the same world. *)
Theorem getRPackageDoc_overview_not_parsed
    args env overview desc functions w3 w4 w5 :
  let name := package args in
  truthy (symbol args) = false ->
  isToolAvailable run (world env) = true ->
  isPackageAvailable run name (world env) = true ->
  run (helpPackageCommand name) (afterPackageCheck run name (world env)) =
  (inr overview, w3) ->
  run (descCommand name) w3 = (inr desc, w4) ->
  run (functionsCommand name) w4 = (inr functions, w5) ->
  (getRPackageDoc run args env).1 =
  inr (mkDocResult (Some (stdout desc))
         (Some ("# Package Overview" +:+ nl +:+ nl +:+ stdout overview
                +:+ nl +:+ nl +:+ "# Exported Functions" +:+ nl +:+ nl
                +:+ stdout functions))
         None None None None) /\
  (notFound (stdout overview) = true ->
   (describeRPackage run args env).1 =
   inr (mkDocResult None None None
          (Some ("Documentation not found for package " +:+ name))
          None None)).
Proof.
  cbv zeta. intros Hsym H1 H2 Hov Hdesc Hfun. split.
  - rewrite getDoc_package by done. by rewrite Hov, Hdesc, Hfun.
  - intros Hnf. rewrite describe_fetch by done. cbv zeta.
    unfold helpCommand. rewrite Hsym, Hov. simpl.
    unfold parseRDoc. rewrite Hnf. unfold notFoundMessage. by rewrite Hsym.
Qed.


(** X20.  In the result of either handler, [suggestInstall] is true
    exactly when the tool check passed and the package check failed, and is
    absent otherwise. *)
Theorem suggestInstall_iff_package_missing args env :
  exists r r',
    (describeRPackage run args env).1 = inr r /\
    (getRPackageDoc run args env).1 = inr r' /\
    let expected :=
      if isToolAvailable run (world env)
         && negb (isPackageAvailable run (package args) (world env))
      then Some true else None in
    suggestInstall r = expected /\ suggestInstall r' = expected.
Proof.
  destruct (isToolAvailable run (world env)) eqn:H1.
  2:{ rewrite describe_tool_missing, getDoc_tool_missing by done.
      by eexists _, _. }
  destruct (isPackageAvailable run (package args) (world env)) eqn:H2.
  2:{ rewrite describe_package_missing, getDoc_package_missing by done.
      by eexists _, _. }
  rewrite describe_fetch by done. cbv zeta. simpl.
  assert (exists r, (getRPackageDoc run args env).1 = inr r /\
                    suggestInstall r = None) as (r' & -> & Hr').
  { destruct (truthy (symbol args)) eqn:Hsym.
    - rewrite getDoc_symbol by done. cbv zeta.
      destruct (run (helpSymbolCommand _ _) _) as [[e|help] w]; simpl;
        [by eexists|].
      destruct (parseRDoc _ _ _) as [e|parsed] eqn:Hp; [by eexists|].
      destruct (parseRDoc_fields _ _ _ _ Hp) as (_ & Hs & _).
      destruct (run (examplesCommand _ _) w) as [[e|ex] w']; simpl;
        [by eexists|].
      destruct (negb _); by eexists.
    - rewrite getDoc_package by done.
      destruct (run (helpPackageCommand _) _) as [[e|o] w]; [by eexists|].
      destruct (run (descCommand _) w) as [[e|d] w']; [by eexists|].
      destruct (run (functionsCommand _) w') as [[e|f] w'']; by eexists. }
  destruct (run (helpCommand _ _) _) as [[e|help] w]; simpl;
    [by eexists _, _|].
  destruct (parseRDoc _ _ _) as [e|parsed] eqn:Hp.
  { by destruct (parseRDoc_returns (stdout help) (package args)
                   (symbol args)) as [? ?]; congruence. }
  destruct (parseRDoc_fields _ _ _ _ Hp) as (_ & Hs & _).
  by eexists _, _.
Qed.

(** X21.  A result of [describeRPackage] that has an [error] has no
    [description], [usage] or [example]. *)
Theorem describeRPackage_error_excludes_fields args env :
  exists r,
    (describeRPackage run args env).1 = inr r /\
    (error r = None \/
     description r = None /\ usage r = None /\ example r = None).
Proof.
  destruct (isToolAvailable run (world env)) eqn:H1.
  2:{ rewrite describe_tool_missing by done. eexists. split; [done|].
      by right. }
  destruct (isPackageAvailable run (package args) (world env)) eqn:H2.
  2:{ rewrite describe_package_missing by done. eexists. split; [done|].
      by right. }
  rewrite describe_fetch by done. cbv zeta.
  destruct (run (helpCommand _ _) _) as [[e|help] w]; simpl.
  { eexists. split; [done|]. by right. }
  destruct (parseRDoc_returns (stdout help) (package args) (symbol args))
    as [parsed Hp].
  rewrite Hp. exists parsed. split; [done|].
  by destruct (parseRDoc_fields _ _ _ _ Hp) as (_ & _ & ?).
Qed.

(** X22.  [getRPackageDoc] can return an [error] together with an
    [example]: for a symbol query whose help text [parseRDoc] rejects and
    whose examples fetch returns a text that is not blank, the result is
    the not-found error with [example] set to that text. *)
Theorem getRPackageDoc_error_with_example args env name help w ex w' :
  symbol args = Some name ->
  name <> "" ->
  isToolAvailable run (world env) = true ->
  isPackageAvailable run (package args) (world env) = true ->
  run (helpSymbolCommand name (package args))
    (afterPackageCheck run (package args) (world env)) = (inr help, w) ->
  notFound (stdout help) = true ->
  run (examplesCommand name (package args)) w = (inr ex, w') ->
  allChars isWhiteSpace (stdout ex) = false ->
  (getRPackageDoc run args env).1 =
  inr (mkDocResult None None (Some (stdout ex))
         (Some ("Documentation not found for " +:+ package args +:+ "::"
                +:+ name))
         None None).
Proof.
  intros Hsym Hname H1 H2 Hhelp Hnf Hex Hblank.
  assert (truthy (symbol args) = true) as H3.
  { rewrite Hsym. by destruct name. }
  rewrite getDoc_symbol by done. cbv zeta. rewrite Hsym. simpl default.
  rewrite Hhelp. unfold parseRDoc. rewrite Hnf, Hex, Hblank. simpl.
  unfold notFoundMessage. simpl truthy. by destruct name.
Qed.

End HandlerMore.

(** ** Further scripted worlds *)

Lemma getRPackageDoc_overview_not_parsed_witness :
  let env :=
    startEnv [rscriptPath; printed "TRUE"; printed "";
              printed "Package:  base"; printed "- mean"] in
  (getRPackageDoc scripted baseQuery env).1 =
  inr (mkDocResult (Some "Package:  base")
         (Some ("# Package Overview" +:+ nl +:+ nl +:+ "" +:+ nl +:+ nl
                +:+ "# Exported Functions" +:+ nl +:+ nl +:+ "- mean"))
         None None None None) /\
  (describeRPackage scripted baseQuery env).1 =
  inr (mkDocResult None None None
         (Some "Documentation not found for package base") None None).
Proof.
  destruct (getRPackageDoc_overview_not_parsed scripted baseQuery
              (startEnv [rscriptPath; printed "TRUE"; printed "";
                         printed "Package:  base"; printed "- mean"])
              (mkExecOutput "" "") (mkExecOutput "Package:  base" "")
              (mkExecOutput "- mean" "")
              [printed "Package:  base"; printed "- mean"]
              [printed "- mean"] []
              eq_refl eq_refl eq_refl eq_refl eq_refl eq_refl) as [Hget Hdesc].
  split; [exact Hget | exact (Hdesc eq_refl)].
Defined.


Lemma getRPackageDoc_error_with_example_witness :
  (getRPackageDoc scripted meanQuery
     (startEnv [rscriptPath; printed "TRUE"; printed "";
                printed "> mean(1:10)"])).1 =
  inr (mkDocResult None None (Some "> mean(1:10)")
         (Some "Documentation not found for base::mean") None None).
Proof.
  apply (getRPackageDoc_error_with_example scripted meanQuery
           (startEnv [rscriptPath; printed "TRUE"; printed "";
                      printed "> mean(1:10)"])
           "mean" (mkExecOutput "" "") [printed "> mean(1:10)"]
           (mkExecOutput "> mean(1:10)" "") []);
    [reflexivity | discriminate | reflexivity | reflexivity | reflexivity
    | reflexivity | reflexivity | reflexivity].
Defined.
